(** * Aegis: learning-condition estimator and pedagogical policy engine

    A shallow embedding of [packages/inference/src/estimator.ts] and
    [packages/policy/src/engine.ts], together with the feature-stream
    schema they consume.

    Numbers.  JavaScript numbers are modelled as exact rationals [Q]:
    every literal of the source ([0.15], [0.6], [300], ...) is a rational
    and every operation used is rational, with the single exception of
    [Math.sqrt], which is taken as a parameter [Math_sqrt].  Rounding,
    NaN and infinities are outside the model.

    Time and randomness.  Every operation takes the caller's clock value
    as an argument, as the source does; the two ambient reads of
    [buildIntervention] ([Math.random] and [Date.now]) are passed in
    explicitly as an [Ambient] record. *)

From Stdlib Require Import QArith Qminmax Qround Qabs Lqa ZArith Lia.
From Stdlib Require Import List Bool String DecimalString.
From Stdlib Require Import Sorted Permutation.
Import ListNotations.

Open Scope string_scope.
Open Scope list_scope.
Open Scope Q_scope.

(* ------------------------------------------------------------------ *)
(** ** Numeric and array prelude *)
(* ------------------------------------------------------------------ *)

(** [x < y] as a boolean test, the way the source branches on it. *)
Definition Qltb (x y : Q) : bool := negb (Qle_bool y x).

(** [x >= y], i.e. the negation of [x < y]. *)
Definition Qgeb (x y : Q) : bool := Qle_bool y x.

(** [Math.floor], [Math.ceil] and [Math.round] (round half up). *)
Definition Math_floor (x : Q) : Z := Qfloor x.
Definition Math_ceil (x : Q) : Z := Qceiling x.
Definition Math_round (x : Q) : Z := Qfloor (x + 0.5).

(** [while (a.length > 0 && p(a[0])) a.shift()] *)
Fixpoint shift_while {A : Type} (p : A -> bool) (a : list A) : list A :=
  match a with
  | [] => []
  | x :: rest => if p x then shift_while p rest else a
  end.

(** [a.some(p)] *)
Definition some {A : Type} (p : A -> bool) (a : list A) : bool := existsb p a.

(** [a.splice(i, 0, x)]: insert [x] at index [i]. *)
Definition splice_insert {A : Type} (i : nat) (x : A) (a : list A) : list A :=
  firstn i a ++ x :: skipn i a.

(** [a.length] as a number. *)
Definition len {A : Type} (a : list A) : Q := inject_Z (Z.of_nat (List.length a)).

(** Decimal rendering of an integer inside a template literal. *)
Definition show_int (z : Z) : string := NilZero.string_of_int (Z.to_int z).

(* ------------------------------------------------------------------ *)
(** ** The feature stream schema ([@aegis/feature-stream]) *)
(* ------------------------------------------------------------------ *)

Module FeatureStream.

Inductive PerceptionSource :=
| ios_arkit | ios_vision | android_mediapipe | web_mediapipe | telemetry_only.

Inductive PerceptionTier := Tier0 | Tier1 | Tier2.

(** The numeric value of the enum member. *)
Definition tier_value (t : PerceptionTier) : Q :=
  match t with Tier0 => 0 | Tier1 => 1 | Tier2 => 2 end.

Record QualityFlags := {
  face_present : bool;
  multiple_faces : bool;
  occluded : bool;
  low_light : bool;
  quality_confidence : Q
}.

Record HeadPose := { yaw : Q; pitch : Q; roll : Q }.

Record GazeEstimate := { gaze_x : Q; gaze_y : Q; gaze_confidence : Q }.

Record EyeMetrics := { blink_rate_30s : Q; openness_l : Q; openness_r : Q }.

Record DistanceEstimate := { face_scale : Q }.

Record Expressivity := {
  smile : option Q;
  brow_furrow : option Q;
  jaw_open : option Q;
  squint : option Q
}.

Record InteractionTelemetry := {
  scroll_speed : Q;
  tap_rate_10s : Q;
  retry_count_60s : Q;
  idle_seconds : option Q;
  content_element_id : option string
}.

(** [null] and [undefined] fields are [None]. *)
Record FeatureStreamEvent := {
  t : Q;
  source : PerceptionSource;
  quality : QualityFlags;
  pose : option HeadPose;
  gaze : option GazeEstimate;
  eyes : option EyeMetrics;
  distance : option DistanceEstimate;
  expressivity : option Expressivity;
  interaction : InteractionTelemetry
}.

End FeatureStream.

(* ------------------------------------------------------------------ *)
(** ** The estimator ([@aegis/inference]) *)
(* ------------------------------------------------------------------ *)

Module Inference.
Import FeatureStream.

Inductive LearningCondition :=
| attentive | wandering | confused | overloaded | fatigued.

Definition LearningCondition_eqb (a b : LearningCondition) : bool :=
  match a, b with
  | attentive, attentive | wandering, wandering | confused, confused
  | overloaded, overloaded | fatigued, fatigued => true
  | _, _ => false
  end.

(** [Record<LearningCondition, number>], fields in the order in which
    [computeConditions] writes them. *)
Record ConditionProbabilities := {
  p_attentive : Q;
  p_wandering : Q;
  p_confused : Q;
  p_overloaded : Q;
  p_fatigued : Q
}.

Record ConditionDriver := {
  description : string;
  features : list string;
  weight : Q
}.

Record LearningConditionState := {
  st_t : Q;
  condition : ConditionProbabilities;
  confidence : Q;
  drivers : list ConditionDriver;
  not_used : list string;
  dominant : LearningCondition
}.

Record UserBaselines := {
  blink_rate_baseline : option Q;
  gaze_break_frequency : option Q;
  response_latency_ms : option Q
}.

Record EstimatorConfig := {
  window_s : Q;
  emit_interval_s : Q;
  confidence_threshold : Q;
  baselines : option UserBaselines
}.

(** [Partial<EstimatorConfig>] *)
Record PartialEstimatorConfig := {
  window_s' : option Q;
  emit_interval_s' : option Q;
  confidence_threshold' : option Q;
  baselines' : option UserBaselines
}.

Definition DEFAULT_ESTIMATOR_CONFIG : EstimatorConfig :=
  {| window_s := 60; emit_interval_s := 3; confidence_threshold := 0.4;
     baselines := None |}.

Definition no_overrides : PartialEstimatorConfig :=
  {| window_s' := None; emit_interval_s' := None;
     confidence_threshold' := None; baselines' := None |}.

(** One field of an object spread [{ ...base, ...over }]. *)
Definition spread {A : Type} (base : A) (over : option A) : A :=
  match over with Some v => v | None => base end.

Definition ewma (prev next alpha : Q) : Q :=
  alpha * next + (1 - alpha) * prev.

Definition clamp (v : Q) : Q := Qmin 1 (Qmax 0 v).

Record Smoothed := {
  gaze_stability : Q;
  pose_stability : Q;
  blink_rate : Q;
  interaction_pace : Q;
  retry_rate : Q;
  idle_time : Q
}.

Definition initial_smoothed : Smoothed :=
  {| gaze_stability := 0.5; pose_stability := 0.5; blink_rate := 0.2;
     interaction_pace := 0.5; retry_rate := 0; idle_time := 0 |}.

Record Estimator := {
  config : EstimatorConfig;
  buffer : list FeatureStreamEvent;
  lastEmit : Q;
  currentTier : PerceptionTier;
  smoothed : Smoothed
}.

Definition ALPHA : Q := 0.15.

Definition constructor (c : PartialEstimatorConfig) : Estimator :=
  {| config :=
       {| window_s := spread (window_s DEFAULT_ESTIMATOR_CONFIG) (window_s' c);
          emit_interval_s :=
            spread (emit_interval_s DEFAULT_ESTIMATOR_CONFIG) (emit_interval_s' c);
          confidence_threshold :=
            spread (confidence_threshold DEFAULT_ESTIMATOR_CONFIG)
                   (confidence_threshold' c);
          baselines :=
            match baselines' c with
            | Some b => Some b
            | None => baselines DEFAULT_ESTIMATOR_CONFIG
            end |};
     buffer := [];
     lastEmit := 0;
     currentTier := Tier0;
     smoothed := initial_smoothed |}.

Definition setTier (tier : PerceptionTier) (e : Estimator) : Estimator :=
  {| config := config e; buffer := buffer e; lastEmit := lastEmit e;
     currentTier := tier; smoothed := smoothed e |}.

Definition reset (e : Estimator) : Estimator :=
  {| config := config e; buffer := []; lastEmit := 0;
     currentTier := currentTier e; smoothed := initial_smoothed |}.

Definition pruneBuffer (cfg : EstimatorConfig) (now : Q)
           (buf : list FeatureStreamEvent) : list FeatureStreamEvent :=
  let cutoff := now - window_s cfg in
  shift_while (fun ev => Qltb (t ev) cutoff) buf.

Section WithSqrt.

(** [Math.sqrt], the one irrational primitive of the source. *)
Variable Math_sqrt : Q -> Q.

Definition updateSmoothedSignals (s : Smoothed) (event : FeatureStreamEvent)
  : Smoothed :=
  let gaze_stability1 :=
    match gaze event with
    | Some g =>
        let gazeOffset := Math_sqrt (gaze_x g ^ 2 + gaze_y g ^ 2) in
        let stability := Qmax 0 (1 - gazeOffset * 2) in
        ewma (gaze_stability s) stability ALPHA
    | None => gaze_stability s
    end in
  let pose_stability1 :=
    match pose event with
    | Some p =>
        let poseMovement := Qabs (yaw p) + Qabs (pitch p) + Qabs (roll p) in
        let stability := Qmax 0 (1 - poseMovement * 2) in
        ewma (pose_stability s) stability ALPHA
    | None => pose_stability s
    end in
  let blink_rate1 :=
    match eyes event with
    | Some e => ewma (blink_rate s) (blink_rate_30s e) (ALPHA * 0.5)
    | None => blink_rate s
    end in
  let interaction_pace1 :=
    ewma (interaction_pace s) (tap_rate_10s (interaction event)) ALPHA in
  let retry_rate1 :=
    ewma (retry_rate s) (retry_count_60s (interaction event)) ALPHA in
  let idle_time1 :=
    match idle_seconds (interaction event) with
    | Some idle => ewma (idle_time s) idle ALPHA
    | None => idle_time s
    end in
  {| gaze_stability := gaze_stability1;
     pose_stability := pose_stability1;
     blink_rate := blink_rate1;
     interaction_pace := interaction_pace1;
     retry_rate := retry_rate1;
     idle_time := idle_time1 |}.

Definition ingest (e : Estimator) (event : FeatureStreamEvent) : Estimator :=
  {| config := config e;
     buffer := pruneBuffer (config e) (t event) (buffer e ++ [event]);
     lastEmit := lastEmit e;
     currentTier := currentTier e;
     smoothed := updateSmoothedSignals (smoothed e) event |}.

(** A run of [ingest] calls, first event first. *)
Definition ingest_all (e : Estimator) (events : list FeatureStreamEvent)
  : Estimator :=
  fold_left ingest events e.

End WithSqrt.

Definition computeConditions (s : Smoothed) : ConditionProbabilities :=
  {| p_attentive :=
       clamp (gaze_stability s * 0.4 +
              pose_stability s * 0.3 +
              (if Qltb 0.05 (interaction_pace s) then 0.3 else 0.1));
     p_wandering :=
       clamp ((1 - gaze_stability s) * 0.4 +
              (1 - pose_stability s) * 0.3 +
              (if Qltb 10 (idle_time s) then 0.3 else idle_time s * 0.03));
     p_confused :=
       clamp (Qmin (retry_rate s * 0.3) 0.4 +
              (if Qltb (interaction_pace s) 0.1 && Qltb 0 (retry_rate s)
               then 0.3 else 0) +
              (1 - gaze_stability s) * 0.15);
     p_overloaded :=
       clamp ((if Qltb 0.3 (blink_rate s)
               then (blink_rate s - 0.3) * 2 else 0) * 0.4 +
              (if Qltb 1 (retry_rate s) then 0.3 else retry_rate s * 0.3) +
              (if Qltb 0.5 (interaction_pace s) then 0.2 else 0));
     p_fatigued :=
       clamp ((if Qltb 0.25 (blink_rate s)
               then (blink_rate s - 0.25) * 2 else 0) * 0.3 +
              (if Qltb 5 (idle_time s)
               then Qmin (idle_time s * 0.03) 0.3 else 0) +
              (if Qltb (interaction_pace s) 0.05 then 0.3 else 0)) |}.

Definition is_some {A : Type} (o : option A) : bool :=
  match o with Some _ => true | None => false end.

Definition computeConfidence (tier : PerceptionTier)
           (buf : list FeatureStreamEvent) : Q :=
  let tierBonus := tier_value tier * 0.15 in
  let bufferFill := Qmin (len buf / 100) 0.3 in
  let hasGaze := if some (fun e => is_some (gaze e)) buf then 0.15 else 0 in
  let hasFace := if some (fun e => face_present (quality e)) buf then 0.15 else 0 in
  clamp (tierBonus + bufferFill + hasGaze + hasFace + 0.1).

(** [drivers.sort((a, b) => b.weight - a.weight)]: a stable sort,
    heaviest first. *)
Fixpoint insert_driver (d : ConditionDriver) (ds : list ConditionDriver)
  : list ConditionDriver :=
  match ds with
  | [] => [d]
  | x :: rest =>
      if Qltb (weight d) (weight x) then x :: insert_driver d rest
      else d :: ds
  end.

Definition sort_drivers (ds : list ConditionDriver) : list ConditionDriver :=
  fold_right insert_driver [] ds.

Definition push_if {A : Type} (c : bool) (x : A) (a : list A) : list A :=
  if c then a ++ [x] else a.

Definition computeDrivers (s : Smoothed) : list ConditionDriver :=
  let d0 := [] in
  let d1 := push_if (Qltb (gaze_stability s) 0.4)
              {| description := "frequent gaze breaks";
                 features := ["gaze.x"; "gaze.y"];
                 weight := 0.4 |} d0 in
  let d2 := push_if (Qltb (pose_stability s) 0.4)
              {| description := "head pose drift";
                 features := ["pose.yaw"; "pose.pitch"; "pose.roll"];
                 weight := 0.3 |} d1 in
  let d3 := push_if (Qltb 0.5 (retry_rate s))
              {| description :=
                   String.append (show_int (Math_round (retry_rate s)))
                                 " retries in last minute";
                 features := ["interaction.retry_count_60s"];
                 weight := 0.35 |} d2 in
  let d4 := push_if (Qltb 10 (idle_time s))
              {| description := "extended idle period";
                 features := ["interaction.idle_seconds"];
                 weight := 0.25 |} d3 in
  let d5 := push_if (Qltb 0.3 (blink_rate s))
              {| description := "elevated blink rate";
                 features := ["eyes.blink_rate_30s"];
                 weight := 0.2 |} d4 in
  let d6 := push_if (Qltb (interaction_pace s) 0.05)
              {| description := "slower response times";
                 features := ["interaction.tap_rate_10s"];
                 weight := 0.2 |} d5 in
  sort_drivers d6.

Definition computeNotUsed (tier : PerceptionTier)
           (buf : list FeatureStreamEvent) : list string :=
  match tier with
  | Tier0 =>
      ["gaze direction (camera off)"; "head pose (camera off)";
       "blink rate (camera off)"; "face distance (camera off)"]
  | _ =>
      let n1 := push_if (negb (some (fun e => is_some (gaze e)) buf))
                  "gaze direction (not available at this tier)" [] in
      push_if (negb (some (fun e => is_some (expressivity e)) buf))
        "expressivity signals (disabled by default)" n1
  end.

(** [Object.entries(conditions)]: own string keys in insertion order. *)
Definition entries (c : ConditionProbabilities) : list (LearningCondition * Q) :=
  [ (attentive, p_attentive c); (wandering, p_wandering c);
    (confused, p_confused c); (overloaded, p_overloaded c);
    (fatigued, p_fatigued c) ].

(** One iteration of the loop of [findDominant] on [(max, dominant)]. *)
Definition dominant_step (acc : Q * LearningCondition)
           (kv : LearningCondition * Q) : Q * LearningCondition :=
  if Qltb (fst acc) (snd kv) then (snd kv, fst kv) else acc.

Definition findDominant (c : ConditionProbabilities) : LearningCondition :=
  snd (fold_left dominant_step (entries c) (-1, attentive)).

(** [estimate(now)]: the estimator afterwards and the returned state,
    [None] for [null]. *)
Definition estimate (e : Estimator) (now : Q)
  : Estimator * option LearningConditionState :=
  if Qltb (now - lastEmit e) (emit_interval_s (config e)) then (e, None)
  else
    let e1 := {| config := config e; buffer := buffer e; lastEmit := now;
                 currentTier := currentTier e; smoothed := smoothed e |} in
    let condition := computeConditions (smoothed e1) in
    let confidence := computeConfidence (currentTier e1) (buffer e1) in
    let drivers := computeDrivers (smoothed e1) in
    let not_used := computeNotUsed (currentTier e1) (buffer e1) in
    let dominant := findDominant condition in
    (e1, Some {| st_t := now; condition := condition; confidence := confidence;
                 drivers := drivers; not_used := not_used;
                 dominant := dominant |}).

End Inference.

(* ------------------------------------------------------------------ *)
(** ** The policy engine ([@aegis/policy]) *)
(* ------------------------------------------------------------------ *)

Module Policy.
Import Inference.

Inductive InterventionClass := Pace | Modality | Hint | Reset | Agency.

Definition InterventionClass_eqb (a b : InterventionClass) : bool :=
  match a, b with
  | Pace, Pace | Modality, Modality | Hint, Hint
  | Reset, Reset | Agency, Agency => true
  | _, _ => false
  end.

Inductive Action := accept | dismiss | alternative.

Definition Action_eqb (a b : Action) : bool :=
  match a, b with
  | accept, accept | dismiss, dismiss | alternative, alternative => true
  | _, _ => false
  end.

Record InterventionOption := {
  opt_id : string;
  opt_label : string;
  opt_action : Action
}.

Record Intervention := {
  int_id : string;
  int_class : InterventionClass;
  int_message : string;
  int_options : list InterventionOption;
  int_triggered_by : list string;
  int_confidence : Q
}.

(** The reasoning text of a decision.  Each constructor is one template
    literal of [evaluate], carrying the values interpolated into it:
    - [AppearsAttentive]: [Learner appears attentive.]
    - [ConfidenceBelow c th]: [Confidence c below threshold th. I may be mistaken.]
    - [NotYetSustained d w]: [Condition d not yet sustained for w s.]
    - [CooldownActive r]: [Cooldown active (r s remaining). Avoiding nagging.]
    - [AlreadyOffered n]: [Already offered n interventions in the last 10 minutes.]
    - [Offering d c cls]: [Sustained d (confidence c) -> offering cls.] *)
Inductive Reasoning :=
| AppearsAttentive
| ConfidenceBelow (confidence threshold : Q)
| NotYetSustained (dominant : LearningCondition) (sustained_window_s : Q)
| CooldownActive (remaining : Z)
| AlreadyOffered (recentCount : nat)
| Offering (dominant : LearningCondition) (confidence : Q)
           (interventionClass : InterventionClass).

(** The reasoning names the cooldown gate. *)
Definition cites_cooldown (r : Reasoning) : bool :=
  match r with CooldownActive _ => true | _ => false end.

(** The reasoning names the sustain gate. *)
Definition cites_sustain (r : Reasoning) : bool :=
  match r with NotYetSustained _ _ => true | _ => false end.

Record InterventionDecision := {
  should_intervene : bool;
  intervention : option Intervention;
  reasoning : Reasoning;
  next_evaluation_s : Q
}.

Inductive Frequency := fewer | default | more.

Inductive PreferredModality := text | diagram | example | voice.

Record LearnerPreferences := {
  frequency : Frequency;
  preferred_modality : option PreferredModality;
  offer_breaks : bool;
  offer_hints : bool
}.

Record PolicyConfig := {
  confidence_threshold : Q;
  sustained_window_s : Q;
  cooldown_s : Q;
  max_per_10min : Q;
  preferences : LearnerPreferences
}.

(** [Partial<PolicyConfig['preferences']>] *)
Record PartialPreferences := {
  frequency' : option Frequency;
  preferred_modality' : option PreferredModality;
  offer_breaks' : option bool;
  offer_hints' : option bool
}.

(** [Partial<PolicyConfig>] *)
Record PartialPolicyConfig := {
  confidence_threshold' : option Q;
  sustained_window_s' : option Q;
  cooldown_s' : option Q;
  max_per_10min' : option Q;
  preferences' : option PartialPreferences
}.

Definition DEFAULT_POLICY_CONFIG : PolicyConfig :=
  {| confidence_threshold := 0.5;
     sustained_window_s := 15;
     cooldown_s := 120;
     max_per_10min := 3;
     preferences :=
       {| frequency := default; preferred_modality := None;
          offer_breaks := true; offer_hints := true |} |}.

Definition no_preferences : PartialPreferences :=
  {| frequency' := None; preferred_modality' := None;
     offer_breaks' := None; offer_hints' := None |}.

Definition no_overrides : PartialPolicyConfig :=
  {| confidence_threshold' := None; sustained_window_s' := None;
     cooldown_s' := None; max_per_10min' := None; preferences' := None |}.

(** [{ ...base, ...prefs }] *)
Definition spread_preferences (base : LearnerPreferences)
           (prefs : PartialPreferences) : LearnerPreferences :=
  {| frequency := spread (frequency base) (frequency' prefs);
     preferred_modality :=
       match preferred_modality' prefs with
       | Some m => Some m
       | None => preferred_modality base
       end;
     offer_breaks := spread (offer_breaks base) (offer_breaks' prefs);
     offer_hints := spread (offer_hints base) (offer_hints' prefs) |}.

Definition RESPONSE_GRAMMAR (cls : InterventionClass) : list string :=
  match cls with
  | Pace =>
      ["We may have moved too quickly.";
       "A smaller step might be kinder.";
       "Perhaps we could slow down here."]
  | Modality =>
      ["Would another form help?";
       "A diagram might make this clearer — shall I try?";
       "Sometimes a different angle helps. Would you like an example?"]
  | Hint =>
      ["There may be a gentler way into this.";
       "A small nudge might help — would you like one?";
       "I could offer a starting point, if you wish."]
  | Reset =>
      ["Shall we pause briefly?";
       "A moment of rest might be welcome.";
       "Your attention has been generous. A short breath?"]
  | Agency =>
      ["What would feel most helpful right now?";
       "Would you prefer an example or a diagram?";
       "You know best — what would you like to try?"]
  end.

Definition CONDITION_INTERVENTIONS (c : LearningCondition)
  : list InterventionClass :=
  match c with
  | attentive => []
  | wandering => [Reset; Modality]
  | confused => [Hint; Pace; Modality]
  | overloaded => [Pace; Reset]
  | fatigued => [Reset; Pace]
  end.

Record InterventionRecord := { h_t : Q; h_class : InterventionClass }.

Record ConditionSample := { c_t : Q; c_condition : LearningCondition }.

Record Engine := {
  config : PolicyConfig;
  history : list InterventionRecord;
  lastInterventionTime : Q;
  conditionHistory : list ConditionSample
}.

(** What [buildIntervention] reads from outside the engine: the value of
    the [Math.random()] call that picks the phrase, [Date.now()], and
    the six base-36 digits cut from the second [Math.random()]. *)
Record Ambient := {
  random_phrase : Q;
  date_now : Z;
  random_digits : string
}.

Definition constructor (c : PartialPolicyConfig) : Engine :=
  {| config :=
       {| confidence_threshold :=
            spread (confidence_threshold DEFAULT_POLICY_CONFIG)
                   (confidence_threshold' c);
          sustained_window_s :=
            spread (sustained_window_s DEFAULT_POLICY_CONFIG)
                   (sustained_window_s' c);
          cooldown_s := spread (cooldown_s DEFAULT_POLICY_CONFIG) (cooldown_s' c);
          max_per_10min :=
            spread (max_per_10min DEFAULT_POLICY_CONFIG) (max_per_10min' c);
          preferences :=
            spread_preferences (preferences DEFAULT_POLICY_CONFIG)
              (spread no_preferences (preferences' c)) |};
     history := [];
     lastInterventionTime := 0;
     conditionHistory := [] |}.

Definition noIntervention (r : Reasoning) (nextEval : Q) : InterventionDecision :=
  {| should_intervene := false; intervention := None;
     reasoning := r; next_evaluation_s := nextEval |}.

Definition adjustedThreshold (cfg : PolicyConfig) : Q :=
  let base := confidence_threshold cfg in
  match frequency (preferences cfg) with
  | fewer => base + 0.1
  | more => Qmax (base - 0.1) 0.3
  | default => base
  end.

Definition adjustedCooldown (cfg : PolicyConfig) : Q :=
  let base := cooldown_s cfg in
  match frequency (preferences cfg) with
  | fewer => base * 1.5
  | more => base * 0.7
  | default => base
  end.

Definition isSustained (cfg : PolicyConfig) (hist : list ConditionSample)
           (condition : LearningCondition) (now : Q) : bool :=
  let cutoff := now - sustained_window_s cfg in
  let recent := filter (fun h => Qgeb (c_t h) cutoff) hist in
  match recent with
  | [] => false
  | _ :: _ =>
      let matchCount :=
        len (filter (fun h => LearningCondition_eqb (c_condition h) condition)
                    recent) in
      Qgeb (matchCount / len recent) 0.6
  end.

Definition pruneConditionHistory (cfg : PolicyConfig) (now : Q)
           (hist : list ConditionSample) : list ConditionSample :=
  let cutoff := now - sustained_window_s cfg * 2 in
  shift_while (fun h => Qltb (c_t h) cutoff) hist.

(** [candidates] is passed as its head and tail: [evaluate] calls
    [chooseClass] only behind the [candidates.length === 0] gate. *)
Definition chooseClass (cfg : PolicyConfig) (hist : list InterventionRecord)
           (candidates0 : InterventionClass)
           (candidates_rest : list InterventionClass)
           (_state : LearningConditionState) : InterventionClass :=
  let candidates := candidates0 :: candidates_rest in
  let filtered :=
    filter (fun c =>
              if InterventionClass_eqb c Reset
                 && negb (offer_breaks (preferences cfg)) then false
              else if InterventionClass_eqb c Hint
                      && negb (offer_hints (preferences cfg)) then false
              else true) candidates in
  let lastClass :=
    match rev hist with
    | last :: _ => Some (h_class last)
    | [] => None
    end in
  let varied :=
    filter (fun c =>
              match lastClass with
              | Some l => negb (InterventionClass_eqb c l)
              | None => true
              end) filtered in
  hd candidates0
     (match varied with _ :: _ => varied | [] => filtered end).

Definition acceptLabel (cls : InterventionClass) : string :=
  match cls with
  | Pace => "Slow down"
  | Modality => "Show me"
  | Hint => "Yes, a hint"
  | Reset => "Take a break"
  | Agency => "Choose for me"
  end.

Definition buildIntervention (cls : InterventionClass)
           (state : LearningConditionState) (amb : Ambient) : Intervention :=
  let messages := RESPONSE_GRAMMAR cls in
  (* every class has three phrases and [Math.random()] is below 1, so
     the index is in range; the default is never read *)
  let message :=
    nth (Z.to_nat (Math_floor (random_phrase amb * len messages)))
        messages EmptyString in
  let options :=
    [ {| opt_id := "accept"; opt_label := acceptLabel cls; opt_action := accept |};
      {| opt_id := "dismiss"; opt_label := "Not now"; opt_action := dismiss |} ] in
  let options :=
    if InterventionClass_eqb cls Agency || InterventionClass_eqb cls Modality
    then splice_insert 1
           {| opt_id := "alternative"; opt_label := "Something else";
              opt_action := alternative |} options
    else options in
  {| int_id :=
       String.append "int_"
         (String.append (show_int (date_now amb))
            (String.append "_" (random_digits amb)));
     int_class := cls;
     int_message := message;
     int_options := options;
     int_triggered_by := map description (drivers state);
     int_confidence := Inference.confidence state |}.

(** The first two statements of [evaluate]: record the dominant label,
    then prune. *)
Definition track (e : Engine) (state : LearningConditionState) : Engine :=
  let now := st_t state in
  {| config := config e;
     history := history e;
     lastInterventionTime := lastInterventionTime e;
     conditionHistory :=
       pruneConditionHistory (config e) now
         (conditionHistory e
            ++ [ {| c_t := now; c_condition := dominant state |} ]) |}.

Definition evaluate (e : Engine) (state : LearningConditionState)
           (amb : Ambient) : Engine * InterventionDecision :=
  let now := st_t state in
  let e := track e state in
  (* Gate 1 *)
  match CONDITION_INTERVENTIONS (dominant state) with
  | [] => (e, noIntervention AppearsAttentive 10)
  | candidates0 :: candidates_rest =>
      (* Gate 2 *)
      let threshold := adjustedThreshold (config e) in
      if Qltb (Inference.confidence state) threshold then
        (e, noIntervention
              (ConfidenceBelow (Inference.confidence state) threshold) 5)
      (* Gate 3 *)
      else if negb (isSustained (config e) (conditionHistory e)
                                (dominant state) now) then
        (e, noIntervention
              (NotYetSustained (dominant state) (sustained_window_s (config e)))
              5)
      else
        (* Gate 4 *)
        let timeSinceLast := now - lastInterventionTime e in
        let cooldown := adjustedCooldown (config e) in
        if Qltb timeSinceLast cooldown then
          let remaining := Math_ceil (cooldown - timeSinceLast) in
          (e, noIntervention (CooldownActive remaining) (inject_Z remaining))
        else
          (* Gate 5 *)
          let recentCount :=
            List.length
              (filter (fun h => Qltb (now - h_t h) 600) (history e)) in
          if Qgeb (inject_Z (Z.of_nat recentCount)) (max_per_10min (config e))
          then (e, noIntervention (AlreadyOffered recentCount) 60)
          else
            let interventionClass :=
              chooseClass (config e) (history e)
                          candidates0 candidates_rest state in
            let intervention := buildIntervention interventionClass state amb in
            ({| config := config e;
                history :=
                  history e ++ [ {| h_t := now; h_class := interventionClass |} ];
                lastInterventionTime := now;
                conditionHistory := conditionHistory e |},
             {| should_intervene := true;
                intervention := Some intervention;
                reasoning :=
                  Offering (dominant state) (Inference.confidence state)
                           interventionClass;
                next_evaluation_s := cooldown |})
  end.

Definition with_cooldown (cfg : PolicyConfig) (c : Q) : PolicyConfig :=
  {| confidence_threshold := confidence_threshold cfg;
     sustained_window_s := sustained_window_s cfg;
     cooldown_s := c;
     max_per_10min := max_per_10min cfg;
     preferences := preferences cfg |}.

Definition recordResponse (e : Engine) (interventionId : string)
           (optionChosen : Action) : Engine :=
  let cfg := config e in
  let cfg1 :=
    match optionChosen with
    | dismiss => with_cooldown cfg (Qmin (cooldown_s cfg + 15) 300)
    | accept => with_cooldown cfg (Qmax (cooldown_s cfg - 5) 60)
    | alternative => cfg
    end in
  {| config := cfg1;
     history := history e;
     lastInterventionTime := lastInterventionTime e;
     conditionHistory := conditionHistory e |}.

Definition updatePreferences (e : Engine) (prefs : PartialPreferences) : Engine :=
  let cfg := config e in
  {| config :=
       {| confidence_threshold := confidence_threshold cfg;
          sustained_window_s := sustained_window_s cfg;
          cooldown_s := cooldown_s cfg;
          max_per_10min := max_per_10min cfg;
          preferences := spread_preferences (preferences cfg) prefs |};
     history := history e;
     lastInterventionTime := lastInterventionTime e;
     conditionHistory := conditionHistory e |}.

Definition reset (e : Engine) : Engine :=
  {| config := config e;
     history := [];
     lastInterventionTime := 0;
     conditionHistory := [] |}.

(** The public operations of an engine, for statements about every
    sequence of calls. *)
Inductive Operation :=
| op_evaluate (state : LearningConditionState) (amb : Ambient)
| op_recordResponse (interventionId : string) (optionChosen : Action)
| op_updatePreferences (prefs : PartialPreferences)
| op_reset.

Definition perform (e : Engine) (op : Operation) : Engine :=
  match op with
  | op_evaluate state amb => fst (evaluate e state amb)
  | op_recordResponse i c => recordResponse e i c
  | op_updatePreferences p => updatePreferences e p
  | op_reset => reset e
  end.

Definition perform_all (e : Engine) (ops : list Operation) : Engine :=
  fold_left perform ops e.

(** A run of [evaluate] calls, threading the engine; the decisions are
    returned in call order. *)
Fixpoint evaluate_all (e : Engine)
         (calls : list (LearningConditionState * Ambient))
  : Engine * list InterventionDecision :=
  match calls with
  | [] => (e, [])
  | (s, a) :: rest =>
      let (e1, d) := evaluate e s a in
      let (e2, ds) := evaluate_all e1 rest in
      (e2, d :: ds)
  end.

End Policy.

(* ------------------------------------------------------------------ *)
(** ** Concrete sessions *)
(* ------------------------------------------------------------------ *)

Module Scenarios.
Import FeatureStream Inference Policy.

(** A rational stand-in for [Math.sqrt], exact to six decimals, for
    running the estimator on concrete samples. *)
Definition approx_sqrt (q : Q) : Q :=
  Z.sqrt (Qnum q * 10 ^ 12 / Zpos (Qden q)) # 10 ^ 6.

Definition telemetry (tap retry : Q) (idle : option Q) : InteractionTelemetry :=
  {| scroll_speed := 0; tap_rate_10s := tap; retry_count_60s := retry;
     idle_seconds := idle; content_element_id := None |}.

(** The synthetic tier-0 sample the pipeline builds from telemetry alone. *)
Definition telemetry_sample (time : Q) (i : InteractionTelemetry)
  : FeatureStreamEvent :=
  {| t := time; source := telemetry_only;
     quality := {| face_present := false; multiple_faces := false;
                   occluded := false; low_light := false;
                   quality_confidence := 0 |};
     pose := None; gaze := None; eyes := None; distance := None;
     expressivity := None; interaction := i |}.

(** A tier-1 camera sample with every perceptual field present. *)
Definition camera_sample (time gx gy : Q) (i : InteractionTelemetry)
  : FeatureStreamEvent :=
  {| t := time; source := web_mediapipe;
     quality := {| face_present := true; multiple_faces := false;
                   occluded := false; low_light := false;
                   quality_confidence := 0.9 |};
     pose := Some {| yaw := 0.05; pitch := -0.02; roll := 0.01 |};
     gaze := Some {| gaze_x := gx; gaze_y := gy; gaze_confidence := 0.8 |};
     eyes := Some {| blink_rate_30s := 0.3; openness_l := 0.9;
                     openness_r := 0.9 |};
     distance := Some {| face_scale := 0.4 |};
     expressivity := None; interaction := i |}.

Definition session_samples : list FeatureStreamEvent :=
  [ camera_sample 1 0.3 0.4 (telemetry 0.2 0 (Some 1));
    telemetry_sample 2 (telemetry 0.1 2 None);
    camera_sample 3 0 0 (telemetry 0 5 (Some 12)) ].

Definition fresh_estimator : Estimator :=
  Inference.constructor Inference.no_overrides.

(** The estimator after the three samples above. *)
Definition session_estimator : Estimator :=
  ingest_all approx_sqrt fresh_estimator session_samples.

(** What [estimate] emits for it at [now = 10], at tier 1 and at tier 0. *)
Definition session_state_tier1 : option LearningConditionState :=
  Eval vm_compute in snd (estimate (setTier Tier1 session_estimator) 10).

Definition session_state : option LearningConditionState :=
  Eval vm_compute in snd (estimate session_estimator 10).

Definition scores (a w c o f : Q) : ConditionProbabilities :=
  {| p_attentive := a; p_wandering := w; p_confused := c;
     p_overloaded := o; p_fatigued := f |}.

Definition attentive_state (time : Q) : LearningConditionState :=
  {| st_t := time; condition := scores 0.65 0.35 0.075 0 0;
     confidence := 0.7; drivers := []; not_used := [];
     dominant := attentive |}.

Definition confused_state (time : Q) : LearningConditionState :=
  {| st_t := time; condition := scores 0.4 0.3 0.7 0.3 0;
     confidence := 0.7;
     drivers := [ {| description := "5 retries in last minute";
                     features := ["interaction.retry_count_60s"];
                     weight := 0.35 |} ];
     not_used := [];
     dominant := confused |}.

Definition wandering_state (time : Q) : LearningConditionState :=
  {| st_t := time; condition := scores 0.3 0.8 0.2 0 0.1;
     confidence := 0.7;
     drivers := [ {| description := "frequent gaze breaks";
                     features := ["gaze.x"; "gaze.y"];
                     weight := 0.4 |} ];
     not_used := [];
     dominant := wandering |}.

Definition ambient : Ambient :=
  {| random_phrase := 0.5; date_now := 1700000000000;
     random_digits := "k3x9qz" |}.

Definition default_engine : Engine := Policy.constructor Policy.no_overrides.

(** The engine as the application pipeline constructs it. *)
Definition pipeline_engine : Engine :=
  Policy.constructor
    {| confidence_threshold' := Some 0.45;
       sustained_window_s' := Some 10;
       cooldown_s' := Some 30;
       max_per_10min' := Some 5;
       preferences' := None |}.

(** Default thresholds, but a sustain window of -1 s: the constructor
    takes it as it comes. *)
Definition negative_window_engine : Engine :=
  Policy.constructor
    {| confidence_threshold' := None;
       sustained_window_s' := Some (-1);
       cooldown_s' := None;
       max_per_10min' := None;
       preferences' := None |}.

(** Default thresholds, learner asked for more frequent offers. *)
Definition eager_engine : Engine :=
  Policy.constructor
    {| confidence_threshold' := None;
       sustained_window_s' := None;
       cooldown_s' := None;
       max_per_10min' := None;
       preferences' :=
         Some {| frequency' := Some more; preferred_modality' := None;
                 offer_breaks' := None; offer_hints' := None |} |}.


End Scenarios.

(* ------------------------------------------------------------------ *)
(** ** Vocabulary of the specification *)
(* ------------------------------------------------------------------ *)

Module Spec.
Import FeatureStream Inference Policy.

(** The closed interval [[0,1]]. *)
Definition in_unit (x : Q) : Prop := 0 <= x /\ x <= 1.

(** The five labels in their declared priority order. *)
Definition labels : list LearningCondition :=
  [attentive; wandering; confused; overloaded; fatigued].

Definition priority (l : LearningCondition) : nat :=
  match l with
  | attentive => 0 | wandering => 1 | confused => 2
  | overloaded => 3 | fatigued => 4
  end.

Definition score (c : ConditionProbabilities) (l : LearningCondition) : Q :=
  match l with
  | attentive => p_attentive c
  | wandering => p_wandering c
  | confused => p_confused c
  | overloaded => p_overloaded c
  | fatigued => p_fatigued c
  end.

(** [l] attains the maximum of the five scores. *)
Definition is_max (c : ConditionProbabilities) (l : LearningCondition) : bool :=
  forallb (fun l' => Qle_bool (score c l') (score c l)) labels.

(** The argmax in priority order: the earliest label attaining the
    maximum. *)
Definition spec_dominant (c : ConditionProbabilities) : LearningCondition :=
  hd attentive (filter (is_max c) labels).

Definition all_equal (c : ConditionProbabilities) : Prop :=
  forall l, score c l == score c attentive.

(** [d] is the first argmax of [c]: no score is above its score, and
    every label before it in the priority order scores strictly less. *)
Definition first_argmax (c : ConditionProbabilities) (d : LearningCondition)
  : Prop :=
  (forall l, score c l <= score c d) /\
  (forall l, (priority l < priority d)%nat -> score c l < score c d).

(** The confidence formula as the specification words it. *)
Definition spec_confidence (tier : PerceptionTier)
           (buf : list FeatureStreamEvent) : Q :=
  clamp (0.15 * tier_value tier
         + Qmin (len buf / 100) 0.3
         + (if existsb (fun e => is_some (gaze e)) buf then 0.15 else 0)
         + (if existsb (fun e => face_present (quality e)) buf then 0.15 else 0)
         + 0.10).

(** An engine straight after construction or [reset()]. *)
Inductive Fresh : Engine -> Prop :=
| fresh_constructor (c : PartialPolicyConfig) : Fresh (Policy.constructor c)
| fresh_reset (e : Engine) : Fresh (Policy.reset e).


(** The actions of an options list, in order. *)
Definition actions (i : Intervention) : list Action :=
  map opt_action (int_options i).

Definition count_dismiss (i : Intervention) : nat :=
  List.length (filter (fun o => Action_eqb (opt_action o) dismiss) (int_options i)).

Definition expected_actions (cls : InterventionClass) : list Action :=
  match cls with
  | Agency | Modality => [accept; alternative; dismiss]
  | _ => [accept; dismiss]
  end.

Definition cooldown_in_range (e : Engine) : Prop :=
  60 <= cooldown_s (Policy.config e) /\ cooldown_s (Policy.config e) <= 300.

(** Gates 1 to 3 of [evaluate] (relevance, confidence, sustain) let
    [state] through on engine [e]. *)
Definition passes_first_three_gates (e : Engine)
           (state : LearningConditionState) : bool :=
  let e1 := track e state in
  match CONDITION_INTERVENTIONS (dominant state) with
  | [] => false
  | _ :: _ =>
      negb (Qltb (Inference.confidence state)
                 (adjustedThreshold (Policy.config e1)))
      && isSustained (Policy.config e1) (conditionHistory e1)
                     (dominant state) (st_t state)
  end.

(** The sustain gate as [evaluate] runs it on [state]. *)
Definition sustain_gate (e : Engine) (state : LearningConditionState) : bool :=
  let e1 := track e state in
  isSustained (Policy.config e1) (conditionHistory e1)
              (dominant state) (st_t state).

End Spec.

(* ------------------------------------------------------------------ *)
(** ** Interaction telemetry ([app/src/telemetry/interaction-tracker.ts]) *)
(* ------------------------------------------------------------------ *)

Module Telemetry.
Import FeatureStream.

(** The tracker's fields; the list of bound DOM handlers is left out.
    Every [Date.now() / 1000] read of the source is an explicit clock
    argument of the operation that makes it, one argument per read. *)
Record InteractionTracker := {
  lastInteractionTime : Q;
  scrollSpeed : Q;
  tapTimestamps : list Q;
  retryTimestamps : list Q;
  lastScrollY : Q;
  lastScrollTime : Q;
  contentElementId : option string
}.

(** The field initialisers; [clock] is the read made for
    [lastInteractionTime]. *)
Definition constructor (clock : Q) : InteractionTracker :=
  {| lastInteractionTime := clock; scrollSpeed := 0;
     tapTimestamps := []; retryTimestamps := [];
     lastScrollY := 0; lastScrollTime := 0; contentElementId := None |}.

Definition recordInteraction (tr : InteractionTracker) (clock : Q)
  : InteractionTracker :=
  {| lastInteractionTime := clock; scrollSpeed := scrollSpeed tr;
     tapTimestamps := tapTimestamps tr; retryTimestamps := retryTimestamps tr;
     lastScrollY := lastScrollY tr; lastScrollTime := lastScrollTime tr;
     contentElementId := contentElementId tr |}.

Definition recordRetry (tr : InteractionTracker) (clock1 clock2 : Q)
  : InteractionTracker :=
  recordInteraction
    {| lastInteractionTime := lastInteractionTime tr;
       scrollSpeed := scrollSpeed tr;
       tapTimestamps := tapTimestamps tr;
       retryTimestamps := retryTimestamps tr ++ [clock1];
       lastScrollY := lastScrollY tr; lastScrollTime := lastScrollTime tr;
       contentElementId := contentElementId tr |}
    clock2.

Definition setContentElement (tr : InteractionTracker) (id : string)
  : InteractionTracker :=
  {| lastInteractionTime := lastInteractionTime tr;
     scrollSpeed := scrollSpeed tr;
     tapTimestamps := tapTimestamps tr; retryTimestamps := retryTimestamps tr;
     lastScrollY := lastScrollY tr; lastScrollTime := lastScrollTime tr;
     contentElementId := Some id |}.

(** [getSnapshot()]: prunes both timestamp lists, then reports. *)
Definition getSnapshot (tr : InteractionTracker) (now : Q)
  : InteractionTracker * InteractionTelemetry :=
  let taps := filter (fun t => Qltb (now - t) 10) (tapTimestamps tr) in
  let retries := filter (fun t => Qltb (now - t) 60) (retryTimestamps tr) in
  ({| lastInteractionTime := lastInteractionTime tr;
      scrollSpeed := scrollSpeed tr;
      tapTimestamps := taps; retryTimestamps := retries;
      lastScrollY := lastScrollY tr; lastScrollTime := lastScrollTime tr;
      contentElementId := contentElementId tr |},
   {| scroll_speed := scrollSpeed tr;
      tap_rate_10s := len taps / 10;
      retry_count_60s := len retries;
      idle_seconds := Some (now - lastInteractionTime tr);
      content_element_id := contentElementId tr |}).

Definition reset (tr : InteractionTracker) (clock : Q) : InteractionTracker :=
  {| lastInteractionTime := clock; scrollSpeed := 0;
     tapTimestamps := []; retryTimestamps := [];
     lastScrollY := lastScrollY tr; lastScrollTime := lastScrollTime tr;
     contentElementId := contentElementId tr |}.

(** [onScroll]: [scrollY] is the target's [scrollTop]; the deferred
    decay is [onScrollDecay], run by the timer 600 ms later. *)
Definition onScroll (tr : InteractionTracker) (scrollY : Q) (now clock2 : Q)
  : InteractionTracker :=
  let dt := now - lastScrollTime tr in
  let speed :=
    if Qltb 0.01 dt then Qabs (scrollY - lastScrollY tr) / dt
    else scrollSpeed tr in
  recordInteraction
    {| lastInteractionTime := lastInteractionTime tr;
       scrollSpeed := speed;
       tapTimestamps := tapTimestamps tr; retryTimestamps := retryTimestamps tr;
       lastScrollY := scrollY; lastScrollTime := now;
       contentElementId := contentElementId tr |}
    clock2.

Definition onScrollDecay (tr : InteractionTracker) (clock : Q)
  : InteractionTracker :=
  if Qltb 0.5 (clock - lastScrollTime tr) then
    {| lastInteractionTime := lastInteractionTime tr;
       scrollSpeed := 0;
       tapTimestamps := tapTimestamps tr; retryTimestamps := retryTimestamps tr;
       lastScrollY := lastScrollY tr; lastScrollTime := lastScrollTime tr;
       contentElementId := contentElementId tr |}
  else tr.

Definition onTap (tr : InteractionTracker) (clock1 clock2 : Q)
  : InteractionTracker :=
  recordInteraction
    {| lastInteractionTime := lastInteractionTime tr;
       scrollSpeed := scrollSpeed tr;
       tapTimestamps := tapTimestamps tr ++ [clock1];
       retryTimestamps := retryTimestamps tr;
       lastScrollY := lastScrollY tr; lastScrollTime := lastScrollTime tr;
       contentElementId := contentElementId tr |}
    clock2.

Definition onKeydown (tr : InteractionTracker) (clock : Q)
  : InteractionTracker :=
  recordInteraction tr clock.

End Telemetry.

(* ------------------------------------------------------------------ *)
(** ** The application pipeline ([app/src/pipeline/aegis-pipeline.ts]) *)
(* ------------------------------------------------------------------ *)

Module App.
Import FeatureStream Inference Policy.

Inductive PerceptionState :=
| uninitialized | requesting | active | denied | stopped.

(** One call of a [PipelineCallbacks] member. *)
Inductive Callback :=
| onConditionUpdate (state : LearningConditionState)
| onIntervention (i : Intervention)
| onTierChange (tier : PerceptionTier)
| onPerceptionStateChange (state : PerceptionState)
| onPolicyReasoning (reasoning : Reasoning).

(** The pipeline's own state.  The perception object and the interval
    timer live outside: what they do to the pipeline arrives as the
    calls below. *)
Record AegisPipeline := {
  estimator : Estimator;
  policy : Engine;
  tracker : Telemetry.InteractionTracker;
  currentTier : PerceptionTier;
  lastCondition : option LearningConditionState
}.

Definition constructor (clock : Q) : AegisPipeline :=
  {| tracker := Telemetry.constructor clock;
     estimator :=
       Inference.constructor
         {| window_s' := Some 60; emit_interval_s' := Some 3;
            Inference.confidence_threshold' := Some 0.4;
            baselines' := None |};
     policy :=
       Policy.constructor
         {| Policy.confidence_threshold' := Some 0.45;
            sustained_window_s' := Some 10;
            cooldown_s' := Some 30;
            max_per_10min' := Some 5;
            preferences' := None |};
     currentTier := Tier0;
     lastCondition := None |}.

(** The [onTierChange] callback handed to the perception object. *)
Definition perceptionTierChange (p : AegisPipeline) (tier : PerceptionTier)
  : AegisPipeline * list Callback :=
  ({| estimator := setTier tier (estimator p);
      policy := policy p; tracker := tracker p;
      currentTier := tier; lastCondition := lastCondition p |},
   [onTierChange tier]).

(** The [onStateChange] callback handed to the perception object. *)
Definition perceptionStateChange (p : AegisPipeline) (state : PerceptionState)
  : AegisPipeline * list Callback :=
  (p, [onPerceptionStateChange state]).

Definition with_interaction (event : FeatureStreamEvent)
           (i : InteractionTelemetry) : FeatureStreamEvent :=
  {| t := t event; source := source event; quality := quality event;
     pose := pose event; gaze := gaze event; eyes := eyes event;
     distance := distance event; expressivity := expressivity event;
     interaction := i |}.

Definition recordInterventionResponse (p : AegisPipeline)
           (interventionId : string) (response : Action) : AegisPipeline :=
  {| estimator := estimator p;
     policy := recordResponse (policy p) interventionId response;
     tracker := tracker p;
     currentTier := currentTier p; lastCondition := lastCondition p |}.

Definition with_tracker (p : AegisPipeline) (tr : Telemetry.InteractionTracker)
  : AegisPipeline :=
  {| estimator := estimator p; policy := policy p; tracker := tr;
     currentTier := currentTier p; lastCondition := lastCondition p |}.

Definition recordRetry (p : AegisPipeline) (clock1 clock2 : Q) : AegisPipeline :=
  with_tracker p (Telemetry.recordRetry (tracker p) clock1 clock2).

Definition setContentElement (p : AegisPipeline) (id : string) : AegisPipeline :=
  with_tracker p (Telemetry.setContentElement (tracker p) id).

(** [stop()]: the perception object's [stop] reports tier 0 and the state
    [stopped] through its callbacks, then estimator, policy and tracker
    are reset. *)
Definition stop (p : AegisPipeline) (clock : Q)
  : AegisPipeline * list Callback :=
  let (p1, cb1) := perceptionTierChange p Tier0 in
  let (p2, cb2) := perceptionStateChange p1 stopped in
  ({| estimator := Inference.reset (estimator p2);
      policy := Policy.reset (policy p2);
      tracker := Telemetry.reset (tracker p2) clock;
      currentTier := currentTier p2; lastCondition := lastCondition p2 |},
   cb1 ++ cb2).

(** The synthetic tier-0 sample of [runInference]. *)
Definition syntheticEvent (now : Q) (telemetry : InteractionTelemetry)
  : FeatureStreamEvent :=
  {| t := now; source := telemetry_only;
     quality := {| face_present := false; multiple_faces := false;
                   occluded := false; low_light := false;
                   quality_confidence := 0 |};
     pose := None; gaze := None; eyes := None; distance := None;
     expressivity := None; interaction := telemetry |}.

Section WithSqrt.

Variable Math_sqrt : Q -> Q.

(** [onFeature]: [clock] is the read made by [getSnapshot]. *)
Definition onFeature (p : AegisPipeline) (event : FeatureStreamEvent)
           (clock : Q) : AegisPipeline :=
  let (tr, telemetry) := Telemetry.getSnapshot (tracker p) clock in
  {| estimator :=
       ingest Math_sqrt (estimator p) (with_interaction event telemetry);
     policy := policy p; tracker := tr;
     currentTier := currentTier p; lastCondition := lastCondition p |}.

(** [runInference]: [clock] is its own [Date.now()] read, [clock2] the
    one [getSnapshot] makes at tier 0, [amb] what [evaluate] reads when
    it builds an intervention. *)
Definition runInference (p : AegisPipeline) (clock clock2 : Q) (amb : Ambient)
  : AegisPipeline * list Callback :=
  let now := clock in
  let p :=
    match currentTier p with
    | Tier0 =>
        let (tr, telemetry) := Telemetry.getSnapshot (tracker p) clock2 in
        {| estimator :=
             ingest Math_sqrt (estimator p) (syntheticEvent now telemetry);
           policy := policy p; tracker := tr;
           currentTier := currentTier p; lastCondition := lastCondition p |}
    | _ => p
    end in
  let (est, result) := estimate (estimator p) now in
  match result with
  | None =>
      ({| estimator := est; policy := policy p; tracker := tracker p;
          currentTier := currentTier p; lastCondition := lastCondition p |},
       [])
  | Some state =>
      let (pol, decision) := evaluate (policy p) state amb in
      ({| estimator := est; policy := pol; tracker := tracker p;
          currentTier := currentTier p; lastCondition := Some state |},
       [onConditionUpdate state; onPolicyReasoning (reasoning decision)]
       ++ (match intervention decision with
           | Some i => if should_intervene decision then [onIntervention i] else []
           | None => []
           end))
  end.

(** Whatever can reach the pipeline from outside, one constructor per
    entry point. *)
Inductive Input :=
| in_feature (event : FeatureStreamEvent) (clock : Q)
| in_tierChange (tier : PerceptionTier)
| in_stateChange (state : PerceptionState)
| in_runInference (clock clock2 : Q) (amb : Ambient)
| in_stop (clock : Q)
| in_recordInterventionResponse (interventionId : string) (response : Action)
| in_recordRetry (clock1 clock2 : Q)
| in_setContentElement (id : string)
| in_tap (clock1 clock2 : Q)
| in_keydown (clock : Q)
| in_scroll (scrollY now clock2 : Q)
| in_scrollDecay (clock : Q).

Definition handle (p : AegisPipeline) (i : Input)
  : AegisPipeline * list Callback :=
  match i with
  | in_feature event clock => (onFeature p event clock, [])
  | in_tierChange tier => perceptionTierChange p tier
  | in_stateChange state => perceptionStateChange p state
  | in_runInference clock clock2 amb => runInference p clock clock2 amb
  | in_stop clock => stop p clock
  | in_recordInterventionResponse id r =>
      (recordInterventionResponse p id r, [])
  | in_recordRetry c1 c2 => (recordRetry p c1 c2, [])
  | in_setContentElement id => (setContentElement p id, [])
  | in_tap c1 c2 => (with_tracker p (Telemetry.onTap (tracker p) c1 c2), [])
  | in_keydown c => (with_tracker p (Telemetry.onKeydown (tracker p) c), [])
  | in_scroll y now c2 =>
      (with_tracker p (Telemetry.onScroll (tracker p) y now c2), [])
  | in_scrollDecay c =>
      (with_tracker p (Telemetry.onScrollDecay (tracker p) c), [])
  end.

(** A session: the inputs in order, the callbacks they raise in order. *)
Fixpoint session (p : AegisPipeline) (inputs : list Input)
  : AegisPipeline * list Callback :=
  match inputs with
  | [] => (p, [])
  | i :: rest =>
      let (p1, cb1) := handle p i in
      let (p2, cb2) := session p1 rest in
      (p2, cb1 ++ cb2)
  end.

End WithSqrt.

End App.

(* ------------------------------------------------------------------ *)
(** ** Further vocabulary: orderings, reachability, candidates *)
(* ------------------------------------------------------------------ *)

Module Laws.
Import FeatureStream Inference Policy Spec.

(** Samples arrive with non-decreasing timestamps. *)
Definition in_time_order (events : list FeatureStreamEvent) : Prop :=
  StronglySorted (fun a b => t a <= t b) events.

(** The sample is at most [window] older than [now]. *)
Definition within_window (now window : Q) (ev : FeatureStreamEvent) : bool :=
  Qgeb (t ev) (now - window).

(** Heaviest first: the weights never increase along the list. *)
Definition heaviest_first (ds : list ConditionDriver) : Prop :=
  StronglySorted (fun a b => weight b <= weight a) ds.

(** The six drivers [computeDrivers] can report, heaviest first, each
    with the test that reports it. *)
Definition driver_table (s : Smoothed) : list (bool * ConditionDriver) :=
  [ (Qltb (gaze_stability s) 0.4,
     {| description := "frequent gaze breaks";
        features := ["gaze.x"; "gaze.y"]; weight := 0.4 |});
    (Qltb 0.5 (retry_rate s),
     {| description :=
          String.append (show_int (Math_round (retry_rate s)))
                        " retries in last minute";
        features := ["interaction.retry_count_60s"]; weight := 0.35 |});
    (Qltb (pose_stability s) 0.4,
     {| description := "head pose drift";
        features := ["pose.yaw"; "pose.pitch"; "pose.roll"]; weight := 0.3 |});
    (Qltb 10 (idle_time s),
     {| description := "extended idle period";
        features := ["interaction.idle_seconds"]; weight := 0.25 |});
    (Qltb 0.3 (blink_rate s),
     {| description := "elevated blink rate";
        features := ["eyes.blink_rate_30s"]; weight := 0.2 |});
    (Qltb (interaction_pace s) 0.05,
     {| description := "slower response times";
        features := ["interaction.tap_rate_10s"]; weight := 0.2 |}) ].

(** The sample carries nothing from a camera: no gaze, no face. *)
Definition telemetry_only_sample (ev : FeatureStreamEvent) : bool :=
  negb (is_some (gaze ev)) && negb (face_present (quality ev)).

(** The interventions recorded in [hist] that [evaluate] at [now] counts
    against the rate limit. *)
Definition recent_interventions (now : Q) (hist : list InterventionRecord)
  : list InterventionRecord :=
  filter (fun h => Qltb (now - h_t h) 600) hist.

(** Every recorded intervention was preceded by fewer than [limit]
    recorded interventions less than 600 s older than it. *)
Inductive rate_respected (limit : Q) : list InterventionRecord -> Prop :=
| rate_respected_nil : rate_respected limit []
| rate_respected_snoc (hist : list InterventionRecord) (h : InterventionRecord) :
    rate_respected limit hist ->
    len (recent_interventions (h_t h) hist) < limit ->
    rate_respected limit (hist ++ [h]).

(** The intervention records are in time order. *)
Definition time_ordered (hist : list InterventionRecord) : Prop :=
  StronglySorted (fun a b => h_t a <= h_t b) hist.

(** Any two recorded interventions are at least [gap] apart, the earlier
    one first. *)
Definition spaced (gap : Q) (hist : list InterventionRecord) : Prop :=
  StronglySorted (fun a b => h_t a + gap <= h_t b) hist.

(** What every operation keeps true of the history when cooldown_s is
    not negative. *)
Definition history_bounded (e : Engine) : Prop :=
  0 <= cooldown_s (Policy.config e) /\
  time_ordered (history e) /\
  Forall (fun h => h_t h <= lastInterventionTime e) (history e).

(** What [evaluate] keeps true of the history for a fixed cooldown. *)
Definition history_spaced (gap : Q) (e : Engine) : Prop :=
  spaced gap (history e) /\
  Forall (fun h => h_t h <= lastInterventionTime e) (history e) /\
  Forall (fun h => gap <= h_t h) (history e) /\
  0 <= lastInterventionTime e.

(** The five gates of [evaluate], as one test on the engine before the
    call. *)
Definition gates_pass (e : Engine) (state : LearningConditionState) : bool :=
  let e1 := track e state in
  let now := st_t state in
  match CONDITION_INTERVENTIONS (dominant state) with
  | [] => false
  | _ :: _ =>
      negb (Qltb (Inference.confidence state)
                 (adjustedThreshold (Policy.config e1)))
      && isSustained (Policy.config e1) (conditionHistory e1)
                     (dominant state) now
      && negb (Qltb (now - lastInterventionTime e1)
                    (adjustedCooldown (Policy.config e1)))
      && negb (Qgeb (len (recent_interventions now (history e1)))
                    (max_per_10min (Policy.config e1)))
  end.

(** The class of the most recent recorded intervention. *)
Definition last_class (hist : list InterventionRecord)
  : option InterventionClass :=
  match rev hist with
  | last :: _ => Some (h_class last)
  | [] => None
  end.

(** [updatePreferences({ frequency: f })]. *)
Definition set_frequency (e : Engine) (f : Frequency) : Engine :=
  updatePreferences e
    {| frequency' := Some f; preferred_modality' := None;
       offer_breaks' := None; offer_hints' := None |}.

(** [n] calls of [recordResponse] with the same choice. *)
Definition respond_repeatedly (e : Engine) (choice : Action) (n : nat) : Engine :=
  perform_all e (repeat (op_recordResponse "int" choice) n).

(** What can happen to a tracker, one constructor per method or DOM
    handler, with the clock reads each makes. *)
Inductive TrackerOp :=
| tr_tap (clock1 clock2 : Q)
| tr_keydown (clock : Q)
| tr_scroll (scrollY now clock2 : Q)
| tr_scrollDecay (clock : Q)
| tr_recordRetry (clock1 clock2 : Q)
| tr_setContentElement (id : string)
| tr_getSnapshot (now : Q)
| tr_reset (clock : Q).

Definition tracker_step (tr : Telemetry.InteractionTracker) (op : TrackerOp)
  : Telemetry.InteractionTracker :=
  match op with
  | tr_tap c1 c2 => Telemetry.onTap tr c1 c2
  | tr_keydown c => Telemetry.onKeydown tr c
  | tr_scroll y now c2 => Telemetry.onScroll tr y now c2
  | tr_scrollDecay c => Telemetry.onScrollDecay tr c
  | tr_recordRetry c1 c2 => Telemetry.recordRetry tr c1 c2
  | tr_setContentElement id => Telemetry.setContentElement tr id
  | tr_getSnapshot now => fst (Telemetry.getSnapshot tr now)
  | tr_reset c => Telemetry.reset tr c
  end.

Definition tracker_run (tr : Telemetry.InteractionTracker)
           (ops : list TrackerOp) : Telemetry.InteractionTracker :=
  fold_left tracker_step ops tr.

(** An input that can reach the pipeline while the camera is off: no
    tier above 0 is announced and no sample carries gaze or a face. *)
Definition camera_off (i : App.Input) : bool :=
  match i with
  | App.in_feature ev _ => telemetry_only_sample ev
  | App.in_tierChange Tier0 => true
  | App.in_tierChange _ => false
  | _ => true
  end.

(** What holds of a pipeline all through a camera-off session. *)
Definition camera_off_state (p : App.AegisPipeline) : Prop :=
  App.currentTier p = Tier0 /\
  Inference.currentTier (App.estimator p) = Tier0 /\
  forallb telemetry_only_sample (buffer (App.estimator p)) = true /\
  0.4 < adjustedThreshold (Policy.config (App.policy p)).

Definition is_intervention (cb : App.Callback) : bool :=
  match cb with App.onIntervention _ => true | _ => false end.

End Laws.
(* ------------------------------------------------------------------ *)
(** ** Facts about the prelude *)
(* ------------------------------------------------------------------ *)

Lemma Qltb_true (x y : Q) : Qltb x y = true <-> x < y.
Proof.
  unfold Qltb. rewrite negb_true_iff.
  split; intros H.
  - apply Qnot_le_lt. intros Hle. apply Qle_bool_iff in Hle. congruence.
  - destruct (Qle_bool y x) eqn:E; [|reflexivity].
    apply Qle_bool_iff in E. exfalso. apply (Qlt_not_le _ _ H E).
Qed.

Lemma Qltb_false (x y : Q) : Qltb x y = false <-> y <= x.
Proof.
  unfold Qltb. rewrite negb_false_iff. apply Qle_bool_iff.
Qed.

Lemma Qgeb_true (x y : Q) : Qgeb x y = true <-> y <= x.
Proof. unfold Qgeb. apply Qle_bool_iff. Qed.

Lemma Qgeb_false (x y : Q) : Qgeb x y = false <-> x < y.
Proof.
  unfold Qgeb. split; intros H.
  - apply Qnot_le_lt. intros Hle. apply Qle_bool_iff in Hle. congruence.
  - destruct (Qle_bool y x) eqn:E; [|reflexivity].
    apply Qle_bool_iff in E. exfalso. apply (Qlt_not_le _ _ H E).
Qed.

(** Turn every boolean comparison in sight into the order fact it decides. *)
Ltac order_facts :=
  repeat match goal with
    | H : Qltb _ _ = true |- _ => apply Qltb_true in H
    | H : Qltb _ _ = false |- _ => apply Qltb_false in H
    | H : Qgeb _ _ = true |- _ => apply Qgeb_true in H
    | H : Qgeb _ _ = false |- _ => apply Qgeb_false in H
    | H : Qle_bool _ _ = true |- _ => apply Qle_bool_iff in H
    end.

Lemma len_nonneg {A : Type} (a : list A) : 0 <= len a.
Proof.
  unfold len. change 0 with (inject_Z 0). rewrite <- Zle_Qle. lia.
Qed.


Lemma len_app {A : Type} (a b : list A) : len (a ++ b) == len a + len b.
Proof.
  unfold len. rewrite length_app, Nat2Z.inj_add, inject_Z_plus. reflexivity.
Qed.

(** What [shift_while] removes is a prefix on which the test holds. *)
Lemma shift_while_split {A : Type} (p : A -> bool) (a : list A) :
  exists gone, a = gone ++ shift_while p a /\ forallb p gone = true.
Proof.
  induction a as [|x rest IH]; cbn [shift_while].
  - exists []. split; reflexivity.
  - destruct (p x) eqn:E.
    + destruct IH as [gone [Heq Hall]].
      exists (x :: gone). split.
      * cbn [app]. f_equal. exact Heq.
      * cbn [forallb]. rewrite E, Hall. reflexivity.
    + exists []. split; reflexivity.
Qed.

Lemma shift_while_keeps {A : Type} (p : A -> bool) (a : list A) (x : A) :
  In x a -> p x = false -> In x (shift_while p a).
Proof.
  intros Hin Hp.
  destruct (shift_while_split p a) as [gone [Heq Hall]].
  rewrite Heq in Hin. apply in_app_or in Hin. destruct Hin as [Hin|Hin]; [|exact Hin].
  rewrite forallb_forall in Hall. rewrite (Hall x Hin) in Hp. discriminate.
Qed.

Lemma shift_while_subset {A : Type} (p : A -> bool) (a : list A) (x : A) :
  In x (shift_while p a) -> In x a.
Proof.
  intros Hin.
  destruct (shift_while_split p a) as [gone [Heq _]].
  rewrite Heq. apply in_or_app. right. exact Hin.
Qed.

(* ------------------------------------------------------------------ *)
(** ** The estimator: scores, confidence, dominant label, smoothing *)
(* ------------------------------------------------------------------ *)

Module InferenceFacts.
Import FeatureStream Inference Spec.

Lemma clamp_in_unit (v : Q) : in_unit (clamp v).
Proof.
  unfold in_unit, clamp. split.
  - apply Q.min_glb; [lra|apply Q.le_max_l].
  - apply Q.le_min_l.
Qed.

Lemma clamp_monotone (u v : Q) : u <= v -> clamp u <= clamp v.
Proof.
  intros H. unfold clamp.
  apply Q.min_le_compat_l. apply Q.max_le_compat_l. exact H.
Qed.

Lemma computeConditions_in_unit (s : Smoothed) :
  let c := computeConditions s in
  in_unit (p_attentive c) /\ in_unit (p_wandering c) /\
  in_unit (p_confused c) /\ in_unit (p_overloaded c) /\
  in_unit (p_fatigued c).
Proof.
  cbn [computeConditions p_attentive p_wandering p_confused p_overloaded
       p_fatigued].
  split; [apply clamp_in_unit|]. split; [apply clamp_in_unit|].
  split; [apply clamp_in_unit|]. split; apply clamp_in_unit.
Qed.

Lemma computeConfidence_in_unit tier buf :
  in_unit (computeConfidence tier buf).
Proof. unfold computeConfidence. apply clamp_in_unit. Qed.

(** What a successful [estimate] returns, field by field. *)
Lemma estimate_emits (e : Estimator) (now : Q) (st : LearningConditionState) :
  snd (estimate e now) = Some st ->
  st_t st = now /\
  condition st = computeConditions (smoothed e) /\
  confidence st = computeConfidence (currentTier e) (buffer e) /\
  drivers st = computeDrivers (smoothed e) /\
  not_used st = computeNotUsed (currentTier e) (buffer e) /\
  dominant st = findDominant (computeConditions (smoothed e)).
Proof.
  unfold estimate.
  destruct (Qltb (now - lastEmit e) (emit_interval_s (config e)));
    cbn [snd]; intros H; [discriminate|].
  injection H as <-. cbn. repeat split.
Qed.

(** [estimate] is total: it returns [null] exactly when the emit
    interval has not elapsed, and a state otherwise. *)
Lemma estimate_returns (e : Estimator) (now : Q) :
  (now - lastEmit e < emit_interval_s (config e) /\
   snd (estimate e now) = None) \/
  (emit_interval_s (config e) <= now - lastEmit e /\
   exists st, snd (estimate e now) = Some st).
Proof.
  unfold estimate.
  destruct (Qltb (now - lastEmit e) (emit_interval_s (config e))) eqn:E;
    order_facts; cbn [snd].
  - left. split; [exact E|reflexivity].
  - right. split; [exact E|eexists; reflexivity].
Qed.

(** *** Claim C3 *)

(** C3. Whatever samples have been ingested and whatever the tier, a
    state returned by [estimate] has its five condition scores and its
    confidence in the closed interval from 0 to 1. *)
Theorem scores_and_confidence_in_unit
        (Math_sqrt : Q -> Q) (c : PartialEstimatorConfig)
        (samples : list FeatureStreamEvent) (tier : PerceptionTier)
        (now : Q) (st : LearningConditionState) :
  snd (estimate (setTier tier (ingest_all Math_sqrt (constructor c) samples)) now)
    = Some st ->
  in_unit (p_attentive (condition st)) /\
  in_unit (p_wandering (condition st)) /\
  in_unit (p_confused (condition st)) /\
  in_unit (p_overloaded (condition st)) /\
  in_unit (p_fatigued (condition st)) /\
  in_unit (confidence st).
Proof.
  intros H. apply estimate_emits in H.
  destruct H as (_ & Hc & Hconf & _).
  rewrite Hc, Hconf.
  pose proof (computeConditions_in_unit
                (smoothed (setTier tier
                   (ingest_all Math_sqrt (constructor c) samples)))) as Hs.
  cbv zeta in Hs. destruct Hs as (Ha & Hw & Hf & Ho & Hg).
  split; [exact Ha|]. split; [exact Hw|]. split; [exact Hf|].
  split; [exact Ho|]. split; [exact Hg|].
  apply computeConfidence_in_unit.
Qed.

Lemma scores_and_confidence_in_unit_witness :
  exists st,
    Scenarios.session_state_tier1 = Some st /\
    in_unit (p_confused (condition st)) /\ in_unit (confidence st).
Proof.
  assert (H : snd (estimate (setTier Tier1
                     (ingest_all Scenarios.approx_sqrt
                        (constructor Inference.no_overrides)
                        Scenarios.session_samples)) 10)
              = Scenarios.session_state_tier1)
    by (vm_compute; reflexivity).
  destruct Scenarios.session_state_tier1 as [st|] eqn:E; [|discriminate E].
  exists st. split; [reflexivity|].
  pose proof (scores_and_confidence_in_unit _ _ _ _ _ _ H) as P.
  split; apply P.
Defined.

(** *** Claim C6 *)

Lemma clamp_compat (u v : Q) : u == v -> clamp u == clamp v.
Proof.
  intros H. unfold clamp.
  apply Q.min_compat; [reflexivity|].
  apply Q.max_compat; [reflexivity|exact H].
Qed.

Lemma computeConfidence_spec tier buf :
  computeConfidence tier buf == spec_confidence tier buf.
Proof.
  unfold computeConfidence, spec_confidence, some.
  apply clamp_compat. ring.
Qed.

Lemma computeConfidence_tier_monotone t1 t2 buf :
  tier_value t1 <= tier_value t2 ->
  computeConfidence t1 buf <= computeConfidence t2 buf.
Proof.
  intros H. unfold computeConfidence. apply clamp_monotone.
  set (fill := Qmin (len buf / 100) 0.3).
  set (g := if some (fun e => is_some (gaze e)) buf then 0.15 else 0).
  set (f := if some (fun e => face_present (quality e)) buf then 0.15 else 0).
  lra.
Qed.

(** C6. The confidence of an emitted state is the clamped sum the
    specification gives (0.15 per tier, the buffer fill capped at 0.3,
    0.15 for gaze data, 0.15 for face presence, and 0.10); for a fixed
    buffer it does not decrease from tier 0 to 1 to 2; and it is never
    above 1. *)
Theorem confidence_formula
        (e : Estimator) (now : Q) (st : LearningConditionState) :
  snd (estimate e now) = Some st ->
  confidence st == spec_confidence (currentTier e) (buffer e) /\
  (computeConfidence Tier0 (buffer e) <= computeConfidence Tier1 (buffer e) /\
   computeConfidence Tier1 (buffer e) <= computeConfidence Tier2 (buffer e)) /\
  (forall tier,
      snd (estimate (setTier tier e) now)
        = Some {| st_t := st_t st; condition := condition st;
                  confidence := computeConfidence tier (buffer e);
                  drivers := drivers st;
                  not_used := computeNotUsed tier (buffer e);
                  dominant := dominant st |}) /\
  confidence st <= 1.
Proof.
  intros H. pose proof (estimate_emits _ _ _ H) as (Ht & Hc & Hconf & Hd & _ & Hdom).
  split; [rewrite Hconf; apply computeConfidence_spec|].
  split; [split; apply computeConfidence_tier_monotone; cbn; lra|].
  split.
  - intros tier. rewrite Ht, Hc, Hd, Hdom.
    revert H. unfold estimate, setTier. cbn.
    destruct (Qltb (now - lastEmit e) (emit_interval_s (config e)));
      cbn; [discriminate|reflexivity].
  - rewrite Hconf. apply computeConfidence_in_unit.
Qed.

Lemma confidence_formula_witness :
  exists st,
    Scenarios.session_state = Some st /\
    confidence st
      == spec_confidence Tier0 (buffer Scenarios.session_estimator) /\
    confidence st <= 1.
Proof.
  assert (H : snd (estimate Scenarios.session_estimator 10)
              = Scenarios.session_state)
    by (vm_compute; reflexivity).
  destruct Scenarios.session_state as [st|] eqn:E; [|discriminate E].
  exists st. split; [reflexivity|].
  pose proof (confidence_formula _ _ _ H) as P.
  split; apply P.
Defined.

(** *** Claim C7 *)

Lemma findDominant_first_argmax (c : ConditionProbabilities) :
  -1 < p_attentive c -> first_argmax c (findDominant c).
Proof.
  intros Ha.
  unfold findDominant, entries, fold_left, dominant_step. cbn [fst snd].
  destruct (Qltb (-1) (p_attentive c)) eqn:E0; order_facts; [|lra].
  cbn [fst snd].
  destruct (Qltb (p_attentive c) (p_wandering c)) eqn:E1; cbn [fst snd];
  match goal with
  | |- context [Qltb ?m (p_confused c)] =>
      destruct (Qltb m (p_confused c)) eqn:E2; cbn [fst snd]
  end;
  match goal with
  | |- context [Qltb ?m (p_overloaded c)] =>
      destruct (Qltb m (p_overloaded c)) eqn:E3; cbn [fst snd]
  end;
  match goal with
  | |- context [Qltb ?m (p_fatigued c)] =>
      destruct (Qltb m (p_fatigued c)) eqn:E4; cbn [fst snd]
  end;
  order_facts;
  (split; intros l; destruct l; cbn [score priority]; intros; try lra; lia).
Qed.

Lemma is_max_true (c : ConditionProbabilities) (l : LearningCondition) :
  is_max c l = true <-> forall l', score c l' <= score c l.
Proof.
  unfold is_max. rewrite forallb_forall. split.
  - intros H l'. apply Qle_bool_iff. apply H.
    unfold labels. destruct l'; cbn; tauto.
  - intros H l' _. apply Qle_bool_iff. apply H.
Qed.

Lemma is_max_false (c : ConditionProbabilities) (l d : LearningCondition) :
  score c l < score c d -> is_max c l = false.
Proof.
  intros H. destruct (is_max c l) eqn:E; [|reflexivity].
  rewrite is_max_true in E. specialize (E d). lra.
Qed.

Lemma first_argmax_spec_dominant (c : ConditionProbabilities)
      (d : LearningCondition) :
  first_argmax c d -> spec_dominant c = d.
Proof.
  intros [Hmax Hfirst].
  assert (Hd : is_max c d = true) by (apply is_max_true; exact Hmax).
  assert (He : forall l, (priority l < priority d)%nat -> is_max c l = false).
  { intros l Hl. apply (is_max_false c l d). apply Hfirst. exact Hl. }
  unfold spec_dominant, labels.
  destruct d; cbn [filter];
    repeat (rewrite He by (cbn; lia)); rewrite Hd; reflexivity.
Qed.

(** C7. The dominant label of an emitted state is the argmax of its
    five scores taken in the order attentive, wandering, confused,
    overloaded, fatigued, ties going to the earliest label; when all
    five scores are equal it is attentive. *)
Theorem dominant_is_first_argmax
        (e : Estimator) (now : Q) (st : LearningConditionState) :
  snd (estimate e now) = Some st ->
  dominant st = spec_dominant (condition st) /\
  (forall l, score (condition st) l <= score (condition st) (dominant st)) /\
  (forall l, (priority l < priority (dominant st))%nat ->
             score (condition st) l < score (condition st) (dominant st)) /\
  (all_equal (condition st) -> dominant st = attentive).
Proof.
  intros H. pose proof (estimate_emits _ _ _ H) as (_ & Hc & _ & _ & _ & Hdom).
  assert (Hfa : first_argmax (condition st) (dominant st)).
  { rewrite Hdom, Hc. apply findDominant_first_argmax.
    pose proof (computeConditions_in_unit (smoothed e)) as [[H0 _] _].
    lra. }
  split; [symmetry; apply first_argmax_spec_dominant; exact Hfa|].
  split; [apply Hfa|]. split; [apply Hfa|].
  intros Heq. destruct Hfa as [_ Hfirst].
  destruct (dominant st) eqn:D; [reflexivity| | | |];
    exfalso; specialize (Hfirst attentive); cbn [priority] in Hfirst;
    match goal with
    | |- _ => pose proof (Heq (dominant st)) as Hq; rewrite D in Hq;
              cbn [score] in *;
              assert (Hlt := Hfirst ltac:(lia)); lra
    end.
Qed.

Lemma dominant_is_first_argmax_witness :
  exists st,
    Scenarios.session_state = Some st /\
    dominant st = spec_dominant (condition st).
Proof.
  assert (H : snd (estimate Scenarios.session_estimator 10)
              = Scenarios.session_state)
    by (vm_compute; reflexivity).
  destruct Scenarios.session_state as [st|] eqn:E; [|discriminate E].
  exists st. split; [reflexivity|].
  apply (dominant_is_first_argmax _ _ _ H).
Defined.

(** *** Claim C9 *)

(** C9. An ingested sample without gaze leaves the smoothed
    gaze_stability as it was; likewise pose_stability without pose,
    blink_rate without eyes, and idle_time without idle_seconds.
    interaction_pace and retry_rate move on every ingest, towards the
    sample's tap rate and retry count. *)
Theorem missing_field_holds_previous
        (Math_sqrt : Q -> Q) (e : Estimator) (event : FeatureStreamEvent) :
  let s := smoothed e in
  let s' := smoothed (ingest Math_sqrt e event) in
  (gaze event = None -> gaze_stability s' = gaze_stability s) /\
  (pose event = None -> pose_stability s' = pose_stability s) /\
  (eyes event = None -> blink_rate s' = blink_rate s) /\
  (idle_seconds (interaction event) = None -> idle_time s' = idle_time s) /\
  interaction_pace s'
    = ewma (interaction_pace s) (tap_rate_10s (interaction event)) ALPHA /\
  retry_rate s'
    = ewma (retry_rate s) (retry_count_60s (interaction event)) ALPHA.
Proof.
  cbn [ingest smoothed updateSmoothedSignals gaze_stability pose_stability
       blink_rate idle_time interaction_pace retry_rate].
  split; [intros ->; reflexivity|].
  split; [intros ->; reflexivity|].
  split; [intros ->; reflexivity|].
  split; [intros ->; reflexivity|].
  split; reflexivity.
Qed.

Lemma missing_field_holds_previous_witness :
  let event := Scenarios.telemetry_sample 2 (Scenarios.telemetry 0.1 2 None) in
  let s := smoothed Scenarios.fresh_estimator in
  let s' := smoothed (ingest Scenarios.approx_sqrt Scenarios.fresh_estimator event) in
  gaze_stability s' = gaze_stability s /\
  pose_stability s' = pose_stability s /\
  blink_rate s' = blink_rate s /\
  idle_time s' = idle_time s.
Proof.
  intros event s s'.
  pose proof (missing_field_holds_previous Scenarios.approx_sqrt
                Scenarios.fresh_estimator event) as (Hg & Hp & Hb & Hi & _).
  split; [exact (Hg eq_refl)|]. split; [exact (Hp eq_refl)|].
  split; [exact (Hb eq_refl)|exact (Hi eq_refl)].
Defined.

End InferenceFacts.

(* ------------------------------------------------------------------ *)
(** ** The policy engine: gates, options, feedback *)
(* ------------------------------------------------------------------ *)

Module PolicyFacts.
Import FeatureStream Inference Policy Spec.

(** *** What [evaluate] leaves alone *)

Lemma track_config e s : Policy.config (track e s) = Policy.config e.
Proof. reflexivity. Qed.

Lemma evaluate_config e s a :
  Policy.config (fst (evaluate e s a)) = Policy.config e.
Proof.
  unfold evaluate.
  destruct (CONDITION_INTERVENTIONS (dominant s)); [reflexivity|].
  destruct (Qltb _ _); [reflexivity|].
  destruct (negb _); [reflexivity|].
  destruct (Qltb _ _); [reflexivity|].
  destruct (Qgeb _ _); reflexivity.
Qed.

(** In every branch [evaluate] leaves the condition history as the
    first two statements made it. *)
Lemma evaluate_conditionHistory e s a :
  conditionHistory (fst (evaluate e s a)) = conditionHistory (track e s).
Proof.
  unfold evaluate.
  destruct (CONDITION_INTERVENTIONS (dominant s)); [reflexivity|].
  destruct (Qltb _ _); [reflexivity|].
  destruct (negb _); [reflexivity|].
  destruct (Qltb _ _); [reflexivity|].
  destruct (Qgeb _ _); reflexivity.
Qed.

Lemma evaluate_all_cons e s a rest :
  fst (evaluate_all e ((s, a) :: rest))
    = fst (evaluate_all (fst (evaluate e s a)) rest).
Proof.
  cbn [evaluate_all].
  destruct (evaluate e s a) as [e1 d]. cbn [fst].
  destruct (evaluate_all e1 rest) as [e2 ds]. reflexivity.
Qed.

Lemma evaluate_all_config calls :
  forall e, Policy.config (fst (evaluate_all e calls)) = Policy.config e.
Proof.
  induction calls as [|[s a] rest IH]; intros e; [reflexivity|].
  rewrite evaluate_all_cons, IH. apply evaluate_config.
Qed.

(** With a non-negative window the entry just pushed survives the prune. *)
Lemma track_pushes e s :
  0 <= sustained_window_s (Policy.config e) ->
  In {| c_t := st_t s; c_condition := dominant s |}
     (conditionHistory (track e s)).
Proof.
  intros Hw. unfold track, pruneConditionHistory. cbn [conditionHistory].
  apply shift_while_keeps; [apply in_or_app; right; left; reflexivity|].
  cbn [c_t]. apply Qltb_false. lra.
Qed.

(** A decision to intervene comes from the last branch only: every
    gate let the state through, and the engine remembers the time. *)
Lemma evaluate_intervenes e s a :
  should_intervene (snd (evaluate e s a)) = true ->
  lastInterventionTime (fst (evaluate e s a)) = st_t s /\
  exists cls,
    intervention (snd (evaluate e s a)) = Some (buildIntervention cls s a).
Proof.
  unfold evaluate.
  destruct (CONDITION_INTERVENTIONS (dominant s)); [discriminate|].
  destruct (Qltb _ _); [discriminate|].
  destruct (negb _); [discriminate|].
  destruct (Qltb _ _); [discriminate|].
  destruct (Qgeb _ _); [discriminate|].
  cbn. intros _. split; [reflexivity|]. eexists. reflexivity.
Qed.

Lemma evaluate_offers e s a i :
  intervention (snd (evaluate e s a)) = Some i ->
  exists cls, i = buildIntervention cls s a.
Proof.
  unfold evaluate.
  destruct (CONDITION_INTERVENTIONS (dominant s)); [discriminate|].
  destruct (Qltb _ _); [discriminate|].
  destruct (negb _); [discriminate|].
  destruct (Qltb _ _); [discriminate|].
  destruct (Qgeb _ _); [discriminate|].
  cbn. intros H. injection H as <-. eexists. reflexivity.
Qed.

(** *** Claim C5 *)

Lemma buildIntervention_options cls s a :
  let i := buildIntervention cls s a in
  int_class i = cls /\
  count_dismiss i = 1%nat /\
  actions i = expected_actions cls.
Proof.
  destruct cls; cbn; repeat split; reflexivity.
Qed.

(** C5. Every intervention that is built carries exactly one option
    whose action is dismiss; for the classes agency and modality the
    options are accept, alternative, dismiss in that order (the
    alternative sits between accept and dismiss), and accept, dismiss
    for the others.  This holds of [buildIntervention] on any class and
    of whatever intervention [evaluate] returns. *)
Theorem options_have_one_dismiss :
  (forall cls s a,
      count_dismiss (buildIntervention cls s a) = 1%nat /\
      actions (buildIntervention cls s a) = expected_actions cls) /\
  (forall e s a i,
      intervention (snd (evaluate e s a)) = Some i ->
      count_dismiss i = 1%nat /\
      actions i = expected_actions (int_class i)).
Proof.
  split.
  - intros cls s a.
    pose proof (buildIntervention_options cls s a) as (_ & H1 & H2).
    split; assumption.
  - intros e s a i H.
    destruct (evaluate_offers _ _ _ _ H) as [cls ->].
    pose proof (buildIntervention_options cls s a) as (Hc & H1 & H2).
    cbv zeta in Hc. rewrite Hc. split; assumption.
Qed.

Lemma options_have_one_dismiss_witness :
  exists i,
    intervention (snd (evaluate Scenarios.default_engine
                         (Scenarios.wandering_state 1000) Scenarios.ambient))
      = Some i /\
    count_dismiss i = 1%nat /\
    actions i = expected_actions (int_class i).
Proof.
  eexists. split; [vm_compute; reflexivity|].
  apply (proj2 options_have_one_dismiss Scenarios.default_engine
           (Scenarios.wandering_state 1000) Scenarios.ambient).
  vm_compute. reflexivity.
Defined.

(** *** Claim C4 *)

Lemma perform_cooldown_in_range e op :
  cooldown_in_range e -> cooldown_in_range (perform e op).
Proof.
  unfold cooldown_in_range. intros [Hlo Hhi].
  destruct op as [s a|i c|prefs|]; cbn [perform].
  - rewrite evaluate_config. split; assumption.
  - destruct c; cbn [recordResponse Policy.config with_cooldown cooldown_s].
    + split; [apply Q.max_le_iff; right; lra|].
      apply Q.max_lub; lra.
    + split; [apply Q.min_glb; lra|apply Q.le_min_r].
    + split; assumption.
  - cbn. split; assumption.
  - cbn. split; assumption.
Qed.

Lemma perform_all_cooldown_in_range ops :
  forall e, cooldown_in_range e -> cooldown_in_range (perform_all e ops).
Proof.
  unfold perform_all.
  induction ops as [|op ops IH]; intros e H; cbn [fold_left].
  - exact H.
  - apply IH. apply perform_cooldown_in_range. exact H.
Qed.

(** C4, as the claim states it, fails: the constructor takes any
    cooldown_s.  The engine the application pipeline builds starts at 30,
    and a dismiss response moves it to 45; neither is in the interval
    from 60 to 300. *)
Lemma cooldown_outside_range :
  cooldown_s (Policy.config Scenarios.pipeline_engine) == 30 /\
  cooldown_s (Policy.config
                (perform_all Scenarios.pipeline_engine
                   [op_recordResponse "int_1" dismiss])) == 45 /\
  ~ cooldown_in_range Scenarios.pipeline_engine /\
  ~ cooldown_in_range
      (perform_all Scenarios.pipeline_engine
         [op_recordResponse "int_1" dismiss]).
Proof.
  split; [reflexivity|]. split; [vm_compute; reflexivity|].
  split; intros [Hlo _]; vm_compute in Hlo; apply Hlo; reflexivity.
Qed.

(** C4, amended. [recordResponse] with dismiss sets cooldown_s to the
    smaller of cooldown_s + 15 and 300, with accept to the larger of
    cooldown_s - 5 and 60, and with alternative leaves it unchanged.
    Consequently an engine whose cooldown_s lies between 60 and 300
    keeps it there across every sequence of operations; this is the
    case of an engine constructed without a cooldown_s override. *)
Theorem cooldown_feedback_bounded :
  (forall e i,
      cooldown_s (Policy.config (recordResponse e i dismiss))
        = Qmin (cooldown_s (Policy.config e) + 15) 300 /\
      cooldown_s (Policy.config (recordResponse e i accept))
        = Qmax (cooldown_s (Policy.config e) - 5) 60 /\
      recordResponse e i alternative = e) /\
  (forall e ops,
      cooldown_in_range e -> cooldown_in_range (perform_all e ops)) /\
  (forall c ops,
      cooldown_s' c = None ->
      cooldown_in_range (perform_all (Policy.constructor c) ops)).
Proof.
  split; [|split].
  - intros e i. split; [reflexivity|]. split; [reflexivity|].
    destruct e; reflexivity.
  - intros e ops. apply perform_all_cooldown_in_range.
  - intros c ops Hc. apply perform_all_cooldown_in_range.
    unfold cooldown_in_range. cbn. rewrite Hc. cbn. split; lra.
Qed.

Lemma cooldown_feedback_bounded_witness :
  let ops := [ op_evaluate (Scenarios.confused_state 1000) Scenarios.ambient;
               op_recordResponse "int_1" dismiss;
               op_recordResponse "int_1" dismiss;
               op_recordResponse "int_1" dismiss;
               op_updatePreferences Policy.no_preferences;
               op_recordResponse "int_2" accept;
               op_reset ] in
  cooldown_in_range Scenarios.default_engine /\
  cooldown_in_range (perform_all Scenarios.default_engine ops) /\
  cooldown_in_range (perform_all (Policy.constructor Policy.no_overrides) ops).
Proof.
  intros ops.
  assert (H0 : cooldown_in_range Scenarios.default_engine)
    by (split; intros H; vm_compute in H; discriminate H).
  split; [exact H0|].
  split.
  - apply (proj1 (proj2 cooldown_feedback_bounded)). exact H0.
  - apply (proj2 (proj2 cooldown_feedback_bounded)). reflexivity.
Defined.

(** *** Claim C10 *)

Lemma Fresh_empty e : Fresh e -> conditionHistory e = [].
Proof. intros [c|e0]; reflexivity. Qed.

Lemma LearningCondition_eqb_refl c : LearningCondition_eqb c c = true.
Proof. destruct c; reflexivity. Qed.

(** C10, as the claim states it, fails: the constructor takes any
    sustained_window_s.  On a new engine with a window of -1 s the prune
    cutoff [now + 2] lies after the entry just pushed, so the entry is
    shifted out again, the sustain gate sees an empty history, and the
    first [evaluate] of a confused state with sufficient confidence
    abstains citing the sustain gate. *)
Lemma first_evaluate_negative_window :
  let e := Scenarios.negative_window_engine in
  let s := Scenarios.confused_state 1000 in
  let d := snd (evaluate e s Scenarios.ambient) in
  Fresh e /\
  dominant s <> attentive /\
  conditionHistory (fst (evaluate e s Scenarios.ambient)) = [] /\
  sustain_gate e s = false /\
  reasoning d = NotYetSustained confused (-1) /\
  cites_sustain (reasoning d) = true.
Proof.
  cbv zeta.
  split; [apply fresh_constructor|]. split; [discriminate|].
  split; [vm_compute; reflexivity|]. split; [vm_compute; reflexivity|].
  split; vm_compute; reflexivity.
Qed.

(** C10, amended. On an engine fresh from construction or [reset()]
    whose sustained_window_s is not negative, the first [evaluate] of a
    state whose dominant label is not attentive never fails the sustain
    gate: [evaluate] leaves exactly that state's entry in the previously
    empty condition history, the trailing window holds that one matching
    entry (ratio 1), and the decision is the one of the other gates: the
    confidence abstention below the adjusted threshold, otherwise the
    cooldown abstention while the clock is below the adjusted cooldown,
    otherwise the rate-limit abstention when max_per_10min is not
    positive, otherwise an intervention.  On any engine with such a
    window the entry [evaluate] pushes is in its condition history and
    inside the trailing window, so the sustain gate never sees an empty
    history. *)
Theorem first_evaluate_is_sustained e s a :
  Fresh e ->
  dominant s <> attentive ->
  0 <= sustained_window_s (Policy.config e) ->
  let d := snd (evaluate e s a) in
  let threshold := adjustedThreshold (Policy.config e) in
  let cooldown := adjustedCooldown (Policy.config e) in
  conditionHistory (fst (evaluate e s a))
    = [ {| c_t := st_t s; c_condition := dominant s |} ] /\
  sustain_gate e s = true /\
  cites_sustain (reasoning d) = false /\
  (confidence s < threshold ->
   reasoning d = ConfidenceBelow (confidence s) threshold) /\
  (threshold <= confidence s -> st_t s - 0 < cooldown ->
   reasoning d = CooldownActive (Math_ceil (cooldown - (st_t s - 0)))) /\
  (threshold <= confidence s -> cooldown <= st_t s - 0 ->
   max_per_10min (Policy.config e) <= 0 ->
   reasoning d = AlreadyOffered 0) /\
  (threshold <= confidence s -> cooldown <= st_t s - 0 ->
   0 < max_per_10min (Policy.config e) ->
   should_intervene d = true /\
   exists cls, reasoning d = Offering (dominant s) (confidence s) cls) /\
  (forall e0 s0 a0,
      0 <= sustained_window_s (Policy.config e0) ->
      In {| c_t := st_t s0; c_condition := dominant s0 |}
         (conditionHistory (fst (evaluate e0 s0 a0))) /\
      Qgeb (st_t s0) (st_t s0 - sustained_window_s (Policy.config e0)) = true).
Proof.
  intros Hfresh Hdom Hw. cbv zeta.
  assert (Hpushed :
            forall e0 s0 a0,
              0 <= sustained_window_s (Policy.config e0) ->
              In {| c_t := st_t s0; c_condition := dominant s0 |}
                 (conditionHistory (fst (evaluate e0 s0 a0))) /\
              Qgeb (st_t s0) (st_t s0 - sustained_window_s (Policy.config e0))
              = true).
  { intros e0 s0 a0 Hw0. split.
    - rewrite evaluate_conditionHistory. apply track_pushes. exact Hw0.
    - apply Qgeb_true. lra. }
  assert (Hstart : history e = [] /\ lastInterventionTime e = 0)
    by (destruct Hfresh; split; reflexivity).
  destruct Hstart as [Hhist Hlast].
  apply Fresh_empty in Hfresh.
  assert (Htrack : conditionHistory (track e s)
                   = [ {| c_t := st_t s; c_condition := dominant s |} ]).
  { unfold track. cbn [conditionHistory]. rewrite Hfresh. cbn [app].
    unfold pruneConditionHistory. cbn [shift_while c_t].
    destruct (Qltb (st_t s) (st_t s - sustained_window_s (Policy.config e) * 2))
             eqn:E; [|reflexivity].
    order_facts. lra. }
  assert (Hgate : sustain_gate e s = true).
  { unfold sustain_gate. cbv zeta. rewrite Htrack, track_config.
    unfold isSustained. cbn [filter c_t c_condition].
    destruct (Qgeb (st_t s) (st_t s - sustained_window_s (Policy.config e)))
             eqn:E.
    - cbn [filter c_condition]. rewrite LearningCondition_eqb_refl.
      reflexivity.
    - order_facts. lra. }
  split; [rewrite evaluate_conditionHistory; exact Htrack|].
  split; [exact Hgate|].
  unfold sustain_gate in Hgate. cbv zeta in Hgate.
  unfold evaluate.
  destruct (CONDITION_INTERVENTIONS (dominant s)) as [|c0 cs] eqn:Etable.
  { exfalso. destruct (dominant s); try discriminate Etable. contradiction. }
  rewrite Hgate. cbn [negb].
  change (lastInterventionTime (track e s)) with (lastInterventionTime e).
  change (history (track e s)) with (history e).
  change (Policy.config (track e s)) with (Policy.config e).
  rewrite Hhist, Hlast. cbn [filter List.length].
  change (inject_Z (Z.of_nat 0)) with 0.
  destruct (Qltb (confidence s) (adjustedThreshold (Policy.config e))) eqn:E2;
    [|destruct (Qltb (st_t s - 0) (adjustedCooldown (Policy.config e))) eqn:E4;
      [|destruct (Qgeb 0 (max_per_10min (Policy.config e))) eqn:E5]];
    order_facts;
    cbn [snd reasoning should_intervene noIntervention cites_sustain];
    (split; [reflexivity|]);
    (split; [intros; first [reflexivity | exfalso; lra]|]);
    (split; [intros; first [reflexivity | exfalso; lra]|]);
    (split; [intros; first [reflexivity | exfalso; lra]|]);
    (split; [intros;
             first [exfalso; lra
                   | split; [reflexivity|eexists; reflexivity]]|]);
    exact Hpushed.
Qed.

Lemma first_evaluate_is_sustained_witness :
  let e := Policy.reset Scenarios.pipeline_engine in
  let s := Scenarios.confused_state 1000 in
  let d := snd (evaluate e s Scenarios.ambient) in
  conditionHistory (fst (evaluate e s Scenarios.ambient))
    = [ {| c_t := 1000; c_condition := confused |} ] /\
  sustain_gate e s = true /\
  cites_sustain (reasoning d) = false /\
  should_intervene d = true.
Proof.
  cbv zeta.
  assert (H1 : Fresh (Policy.reset Scenarios.pipeline_engine))
    by apply fresh_reset.
  assert (H2 : dominant (Scenarios.confused_state 1000) <> attentive)
    by discriminate.
  assert (H3 : 0 <= sustained_window_s
                      (Policy.config (Policy.reset Scenarios.pipeline_engine)))
    by (vm_compute; discriminate).
  destruct (first_evaluate_is_sustained
              (Policy.reset Scenarios.pipeline_engine)
              (Scenarios.confused_state 1000) Scenarios.ambient H1 H2 H3)
    as (Hhist & Hgate & Hwhy & _ & _ & _ & Hoffer & _).
  split; [exact Hhist|]. split; [exact Hgate|]. split; [exact Hwhy|].
  apply Hoffer; vm_compute; first [discriminate | reflexivity].
Defined.

(** *** Claim C1 *)

(** While the adjusted cooldown runs, [evaluate] abstains; it blames
    the cooldown exactly when the three earlier gates let the state
    through. *)
Lemma evaluate_in_cooldown e s a :
  st_t s - lastInterventionTime e < adjustedCooldown (Policy.config e) ->
  let d := snd (evaluate e s a) in
  should_intervene d = false /\
  cites_cooldown (reasoning d) = passes_first_three_gates e s /\
  (passes_first_three_gates e s = true ->
   reasoning d
     = CooldownActive
         (Math_ceil (adjustedCooldown (Policy.config e)
                     - (st_t s - lastInterventionTime e)))).
Proof.
  intros Hcool. unfold evaluate, passes_first_three_gates. cbv zeta.
  destruct (CONDITION_INTERVENTIONS (dominant s)) as [|c0 cs].
  { cbn. split; [reflexivity|]. split; [reflexivity|discriminate]. }
  destruct (Qltb (confidence s) (adjustedThreshold (Policy.config (track e s)))).
  { cbn. split; [reflexivity|]. split; [reflexivity|discriminate]. }
  destruct (isSustained (Policy.config (track e s))
              (conditionHistory (track e s)) (dominant s) (st_t s)).
  2:{ cbn. split; [reflexivity|]. split; [reflexivity|discriminate]. }
  cbn [negb andb].
  change (lastInterventionTime (track e s)) with (lastInterventionTime e).
  change (Policy.config (track e s)) with (Policy.config e).
  apply Qltb_true in Hcool. rewrite Hcool.
  cbn. split; [reflexivity|]. split; reflexivity.
Qed.

(** C1, as the claim states it, fails twice over.  With the learner
    preference set to more, the adjusted cooldown is 0.7 of cooldown_s
    (84 s for 120 s): after an intervention at 1000, a state at 1100
    (100 s later, below cooldown_s) is offered a second intervention.
    And with default preferences, an attentive state 3 s after an
    intervention is turned away by the relevance gate, whose reasoning
    does not mention the cooldown. *)
Lemma cooldown_claim_fails :
  (let first := evaluate Scenarios.eager_engine
                  (Scenarios.confused_state 1000) Scenarios.ambient in
   let second := evaluate (fst first)
                   (Scenarios.confused_state 1100) Scenarios.ambient in
   should_intervene (snd first) = true /\
   0 < 1100 - 1000 /\
   1100 - 1000 < cooldown_s (Policy.config (fst first)) /\
   should_intervene (snd second) = true) /\
  (let first := evaluate Scenarios.default_engine
                  (Scenarios.confused_state 1000) Scenarios.ambient in
   let second := evaluate (fst first)
                   (Scenarios.attentive_state 1003) Scenarios.ambient in
   should_intervene (snd first) = true /\
   1003 - 1000 < cooldown_s (Policy.config (fst first)) /\
   reasoning (snd second) = AppearsAttentive /\
   cites_cooldown (reasoning (snd second)) = false).
Proof.
  split; cbv zeta.
  - split; [vm_compute; reflexivity|].
    split; [reflexivity|]. split; vm_compute; reflexivity.
  - split; [vm_compute; reflexivity|].
    split; [vm_compute; reflexivity|]. split; vm_compute; reflexivity.
Qed.

(** Once the cooldown is not negative, the time of the last
    intervention never moves backwards under [evaluate]. *)
Lemma evaluate_last_monotone e s a (T : Q) :
  0 <= adjustedCooldown (Policy.config e) ->
  T <= lastInterventionTime e ->
  T <= lastInterventionTime (fst (evaluate e s a)).
Proof.
  intros Hcool HT. unfold evaluate.
  destruct (CONDITION_INTERVENTIONS (dominant s)); [exact HT|].
  destruct (Qltb _ _); [exact HT|].
  destruct (negb _); [exact HT|].
  change (lastInterventionTime (track e s)) with (lastInterventionTime e).
  change (Policy.config (track e s)) with (Policy.config e).
  destruct (Qltb (st_t s - lastInterventionTime e)
              (adjustedCooldown (Policy.config e))) eqn:E; [exact HT|].
  destruct (Qgeb _ _); [exact HT|].
  cbn [fst lastInterventionTime]. order_facts. lra.
Qed.

Lemma evaluate_all_last_monotone calls :
  forall e (T : Q),
    0 <= adjustedCooldown (Policy.config e) ->
    T <= lastInterventionTime e ->
    T <= lastInterventionTime (fst (evaluate_all e calls)).
Proof.
  induction calls as [|[s a] rest IH]; intros e T Hcool HT; [exact HT|].
  rewrite evaluate_all_cons. apply IH.
  - rewrite evaluate_config. exact Hcool.
  - apply evaluate_last_monotone; assumption.
Qed.

(** C1, amended. After an intervention returned by [evaluate] at time
    t0, every later [evaluate] call (the next one, or one reached through
    further [evaluate] calls) on a state with timestamp t0 + eps, for
    every eps above 0 and below the adjusted cooldown (cooldown_s times
    1.5 for the preference fewer, times 0.7 for more, cooldown_s itself
    otherwise), returns should_intervene = false; its reasoning cites
    the cooldown gate, with the remaining seconds rounded up, exactly
    when the state passes the relevance, confidence and sustain gates,
    which run first. *)
Theorem cooldown_blocks_next_evaluate e s a between s' a' :
  should_intervene (snd (evaluate e s a)) = true ->
  0 < st_t s' - st_t s ->
  st_t s' - st_t s < adjustedCooldown (Policy.config e) ->
  let e1 := fst (evaluate_all (fst (evaluate e s a)) between) in
  let d := snd (evaluate e1 s' a') in
  should_intervene d = false /\
  cites_cooldown (reasoning d) = passes_first_three_gates e1 s' /\
  (passes_first_three_gates e1 s' = true ->
   reasoning d
     = CooldownActive
         (Math_ceil (adjustedCooldown (Policy.config e)
                     - (st_t s' - lastInterventionTime e1)))) /\
  st_t s <= lastInterventionTime e1 /\
  (between = [] -> lastInterventionTime e1 = st_t s).
Proof.
  intros Hyes Hpos Heps e1 d.
  destruct (evaluate_intervenes _ _ _ Hyes) as [Hlast _].
  assert (Hcfg : Policy.config e1 = Policy.config e).
  { unfold e1. rewrite evaluate_all_config. apply evaluate_config. }
  assert (Hmono : st_t s <= lastInterventionTime e1).
  { unfold e1. apply evaluate_all_last_monotone.
    - rewrite evaluate_config. lra.
    - rewrite Hlast. lra. }
  pose proof (evaluate_in_cooldown e1 s' a') as H.
  rewrite Hcfg in H.
  assert (Hin : st_t s' - lastInterventionTime e1
                < adjustedCooldown (Policy.config e)) by lra.
  destruct (H Hin) as (Hno & Hcites & Hwhy).
  split; [exact Hno|]. split; [exact Hcites|]. split; [exact Hwhy|].
  split; [exact Hmono|].
  intros ->. exact Hlast.
Qed.

Lemma cooldown_blocks_next_evaluate_witness :
  let first := evaluate Scenarios.eager_engine
                 (Scenarios.confused_state 1000) Scenarios.ambient in
  let between := [ (Scenarios.attentive_state 1040, Scenarios.ambient);
                   (Scenarios.confused_state 1076, Scenarios.ambient) ] in
  let second := evaluate (fst (evaluate_all (fst first) between))
                  (Scenarios.confused_state 1080) Scenarios.ambient in
  should_intervene (snd first) = true /\
  1080 - 1000 < adjustedCooldown (Policy.config Scenarios.eager_engine) /\
  should_intervene (snd second) = false /\
  reasoning (snd second) = CooldownActive 4.
Proof.
  cbv zeta.
  assert (H1 : should_intervene
                 (snd (evaluate Scenarios.eager_engine
                         (Scenarios.confused_state 1000) Scenarios.ambient))
               = true) by (vm_compute; reflexivity).
  assert (H2 : 0 < st_t (Scenarios.confused_state 1080)
                   - st_t (Scenarios.confused_state 1000))
    by (vm_compute; reflexivity).
  assert (H3 : st_t (Scenarios.confused_state 1080)
               - st_t (Scenarios.confused_state 1000)
               < adjustedCooldown (Policy.config Scenarios.eager_engine))
    by (vm_compute; reflexivity).
  pose proof (cooldown_blocks_next_evaluate Scenarios.eager_engine
                (Scenarios.confused_state 1000) Scenarios.ambient
                [ (Scenarios.attentive_state 1040, Scenarios.ambient);
                  (Scenarios.confused_state 1076, Scenarios.ambient) ]
                (Scenarios.confused_state 1080) Scenarios.ambient
                H1 H2 H3) as (Hno & _ & Hwhy & _).
  split; [exact H1|]. split; [exact H3|]. split; [exact Hno|].
  rewrite Hwhy; vm_compute; reflexivity.
Defined.

(** *** Claim C2 *)














End PolicyFacts.

(* ------------------------------------------------------------------ *)
(** ** Estimator and engine before any sample *)
(* ------------------------------------------------------------------ *)

Module StartupFacts.
Import FeatureStream Inference Policy Spec.

(** *** Claim C8 *)



End StartupFacts.

(* ------------------------------------------------------------------ *)
(** ** The estimator: scheduling, buffer, smoothing bounds, drivers *)
(* ------------------------------------------------------------------ *)

Module EstimatorLaws.
Import FeatureStream Inference Spec Laws InferenceFacts.

(** *** What [ingest] and [setTier] leave alone *)

Lemma ingest_all_snoc sq e events ev :
  ingest_all sq e (events ++ [ev]) = ingest sq (ingest_all sq e events) ev.
Proof. unfold ingest_all. rewrite fold_left_app. reflexivity. Qed.

Lemma ingest_all_frame sq events :
  forall e,
    config (ingest_all sq e events) = config e /\
    lastEmit (ingest_all sq e events) = lastEmit e /\
    currentTier (ingest_all sq e events) = currentTier e.
Proof.
  induction events as [|ev rest IH]; intros e; [repeat split|].
  cbn [ingest_all fold_left]. destruct (IH (ingest sq e ev)) as (H1 & H2 & H3).
  unfold ingest_all in *. rewrite H1, H2, H3. repeat split.
Qed.

(** *** Emission scheduling *)

(** X1. Once a state has been emitted at [now], no call before
    [now + emit_interval_s] emits again, whatever has been ingested and
    whichever tier has been set in between; such a call changes nothing. *)
Theorem no_emission_inside_interval sq e now st events tier now' :
  snd (estimate e now) = Some st ->
  now' - now < emit_interval_s (config e) ->
  let e1 := setTier tier (ingest_all sq (fst (estimate e now)) events) in
  estimate e1 now' = (e1, None).
Proof.
  intros Hemit Hsoon e1.
  assert (Hlast : lastEmit (fst (estimate e now)) = now /\
                  config (fst (estimate e now)) = config e).
  { revert Hemit. unfold estimate.
    destruct (Qltb (now - lastEmit e) (emit_interval_s (config e)));
      cbn; [discriminate|]. intros _. split; reflexivity. }
  destruct Hlast as [Hlast Hcfg].
  destruct (ingest_all_frame sq events (fst (estimate e now))) as (Hc & Hl & _).
  unfold estimate.
  assert (Hl1 : lastEmit e1 = now) by (unfold e1; cbn; rewrite Hl; exact Hlast).
  assert (Hc1 : config e1 = config e) by (unfold e1; cbn; rewrite Hc; exact Hcfg).
  rewrite Hl1, Hc1.
  apply Qltb_true in Hsoon. rewrite Hsoon. reflexivity.
Qed.

Lemma no_emission_inside_interval_witness :
  let first := estimate Scenarios.fresh_estimator 10 in
  let e1 := setTier Tier1
              (ingest_all Scenarios.approx_sqrt (fst first)
                 Scenarios.session_samples) in
  estimate e1 12 = (e1, None).
Proof.
  cbv zeta.
  assert (H1 : snd (estimate Scenarios.fresh_estimator 10)
               = Some (match snd (estimate Scenarios.fresh_estimator 10) with
                       | Some st => st
                       | None => Scenarios.attentive_state 0
                       end)) by (vm_compute; reflexivity).
  assert (H2 : 12 - 10 < emit_interval_s (config Scenarios.fresh_estimator))
    by (vm_compute; reflexivity).
  exact (no_emission_inside_interval Scenarios.approx_sqrt
           Scenarios.fresh_estimator 10 _ Scenarios.session_samples Tier1 12
           H1 H2).
Defined.

(** *** The ingestion buffer *)

Lemma sorted_snoc_inv {A : Type} (R : A -> A -> Prop) (l : list A) (x : A) :
  StronglySorted R (l ++ [x]) ->
  StronglySorted R l /\ Forall (fun y => R y x) l.
Proof.
  induction l as [|a l IH]; cbn [app]; intros H.
  - split; constructor.
  - apply StronglySorted_inv in H. destruct H as [Hs Hall].
    destruct (IH Hs) as [Hl Hx]. split.
    + constructor; [exact Hl|].
      rewrite Forall_forall in *. intros y Hy. apply Hall.
      apply in_or_app. left. exact Hy.
    + constructor; [|exact Hx].
      rewrite Forall_forall in Hall. apply Hall.
      apply in_or_app. right. left. reflexivity.
Qed.

(** On samples in time order the prune loop keeps exactly the samples
    inside the window. *)
Lemma shift_while_sorted (cutoff : Q) (l : list FeatureStreamEvent) :
  in_time_order l ->
  shift_while (fun ev => Qltb (t ev) cutoff) l
    = filter (fun ev => Qgeb (t ev) cutoff) l.
Proof.
  unfold in_time_order. induction 1 as [|a l Hs IH Hall];
    cbn [shift_while filter]; [reflexivity|].
  destruct (Qltb (t a) cutoff) eqn:E.
  - assert (Hg : Qgeb (t a) cutoff = false)
      by (apply Qgeb_false; apply Qltb_true; exact E).
    rewrite Hg. exact IH.
  - assert (Hg : Qgeb (t a) cutoff = true)
      by (apply Qgeb_true; apply Qltb_false; exact E).
    rewrite Hg. f_equal.
    symmetry. apply forallb_filter_id. apply forallb_forall.
    intros y Hy. rewrite Forall_forall in Hall. specialize (Hall y Hy).
    apply Qgeb_true. order_facts. lra.
Qed.

Lemma filter_filter_window (c1 c2 : Q) (l : list FeatureStreamEvent) :
  c1 <= c2 ->
  filter (fun ev => Qgeb (t ev) c2) (filter (fun ev => Qgeb (t ev) c1) l)
    = filter (fun ev => Qgeb (t ev) c2) l.
Proof.
  intros Hc. induction l as [|a l IH]; cbn [filter]; [reflexivity|].
  destruct (Qgeb (t a) c1) eqn:E1; cbn [filter].
  - rewrite IH. reflexivity.
  - rewrite IH.
    assert (E2 : Qgeb (t a) c2 = false) by (apply Qgeb_false; order_facts; lra).
    rewrite E2. reflexivity.
Qed.

Lemma sorted_filter_snoc (c : Q) (l : list FeatureStreamEvent) ev :
  in_time_order (l ++ [ev]) ->
  in_time_order (filter (fun x => Qgeb (t x) c) l ++ [ev]).
Proof.
  unfold in_time_order. induction l as [|a l IH]; cbn [app filter]; intros H.
  - exact H.
  - apply StronglySorted_inv in H. destruct H as [Hs Hall].
    destruct (Qgeb (t a) c); [|apply IH; exact Hs].
    cbn [app]. constructor; [apply IH; exact Hs|].
    rewrite Forall_forall in *. intros y Hy. apply Hall.
    apply in_app_or in Hy. apply in_or_app. destruct Hy as [Hy|Hy]; [left|right; exact Hy].
    apply filter_In in Hy. apply Hy.
Qed.

(** X2. When an estimator with an empty buffer and a non-negative window
    ingests samples whose timestamps never decrease, its buffer is
    exactly the ingested samples that are at most [window_s] older than
    the latest one, in arrival order. *)
Theorem buffer_is_trailing_window sq e events ev :
  buffer e = [] ->
  0 <= window_s (config e) ->
  in_time_order (events ++ [ev]) ->
  buffer (ingest_all sq e (events ++ [ev]))
    = filter (within_window (t ev) (window_s (config e))) (events ++ [ev]).
Proof.
  intros Hempty Hw. revert ev.
  induction events as [|ev' events IH] using rev_ind; intros ev Hsorted.
  - cbn. rewrite Hempty. cbn. unfold pruneBuffer. cbn.
    unfold within_window.
    assert (E : Qltb (t ev) (t ev - window_s (config e)) = false)
      by (apply Qltb_false; lra).
    assert (E' : Qgeb (t ev) (t ev - window_s (config e)) = true)
      by (apply Qgeb_true; lra).
    rewrite E, E'. reflexivity.
  - rewrite ingest_all_snoc. cbn [ingest buffer].
    destruct (ingest_all_frame sq (events ++ [ev']) e) as (Hc & _ & _).
    rewrite Hc.
    pose proof (sorted_snoc_inv _ _ _ Hsorted) as [Hs Hall].
    rewrite (IH ev' Hs).
    unfold pruneBuffer, within_window.
    rewrite shift_while_sorted by (apply sorted_filter_snoc; exact Hsorted).
    rewrite filter_app, filter_filter_window.
    + rewrite <- filter_app. reflexivity.
    + rewrite Forall_forall in Hall.
      assert (Hle : t ev' <= t ev)
        by (apply Hall; apply in_or_app; right; left; reflexivity).
      lra.
Qed.

Lemma buffer_is_trailing_window_witness :
  buffer (ingest_all Scenarios.approx_sqrt Scenarios.fresh_estimator
            Scenarios.session_samples)
    = filter (within_window 3 60) Scenarios.session_samples.
Proof.
  assert (H1 : buffer Scenarios.fresh_estimator = []) by reflexivity.
  assert (H2 : 0 <= window_s (config Scenarios.fresh_estimator))
    by (vm_compute; discriminate).
  assert (H3 : in_time_order Scenarios.session_samples).
  { unfold in_time_order, Scenarios.session_samples.
    repeat (constructor; [|repeat (constructor; try (vm_compute; discriminate))]).
    constructor. }
  exact (buffer_is_trailing_window Scenarios.approx_sqrt
           Scenarios.fresh_estimator
           (firstn 2 Scenarios.session_samples)
           (Scenarios.camera_sample 3 0 0 (Scenarios.telemetry 0 5 (Some 12)))
           H1 H2 H3).
Defined.

(** *** Bounds kept by the smoother *)

Lemma ewma_in_unit (prev next : Q) :
  in_unit prev -> in_unit next -> in_unit (ewma prev next ALPHA).
Proof.
  unfold in_unit, ewma, ALPHA. intros [H1 H2] [H3 H4]. split; lra.
Qed.

Lemma stability_in_unit (movement : Q) :
  0 <= movement -> in_unit (Qmax 0 (1 - movement * 2)).
Proof.
  intros H. unfold in_unit. split; [apply Q.le_max_l|].
  apply Q.max_lub; lra.
Qed.

Lemma updateSmoothedSignals_stabilities sq s ev :
  (forall x, 0 <= sq x) ->
  in_unit (gaze_stability s) /\ in_unit (pose_stability s) ->
  in_unit (gaze_stability (updateSmoothedSignals sq s ev)) /\
  in_unit (pose_stability (updateSmoothedSignals sq s ev)).
Proof.
  intros Hsq [Hg Hp].
  cbn [updateSmoothedSignals gaze_stability pose_stability]. split.
  - destruct (gaze ev) as [g|]; [|exact Hg].
    apply ewma_in_unit; [exact Hg|]. apply stability_in_unit. apply Hsq.
  - destruct (pose ev) as [p|]; [|exact Hp].
    apply ewma_in_unit; [exact Hp|]. apply stability_in_unit.
    pose proof (Qabs_nonneg (yaw p)). pose proof (Qabs_nonneg (pitch p)).
    pose proof (Qabs_nonneg (roll p)). lra.
Qed.

Lemma ingest_all_stabilities sq events :
  (forall x, 0 <= sq x) ->
  forall e,
    in_unit (gaze_stability (smoothed e)) /\
    in_unit (pose_stability (smoothed e)) ->
    in_unit (gaze_stability (smoothed (ingest_all sq e events))) /\
    in_unit (pose_stability (smoothed (ingest_all sq e events))).
Proof.
  intros Hsq. induction events as [|ev rest IH]; intros e H; [exact H|].
  cbn [ingest_all fold_left]. apply IH. cbn [ingest smoothed].
  apply updateSmoothedSignals_stabilities; assumption.
Qed.

Lemma fresh_stabilities c :
  in_unit (gaze_stability (smoothed (constructor c))) /\
  in_unit (pose_stability (smoothed (constructor c))).
Proof. cbn. unfold in_unit. split; split; lra. Qed.

Lemma approx_sqrt_nonneg (x : Q) : 0 <= Scenarios.approx_sqrt x.
Proof.
  unfold Scenarios.approx_sqrt, Qle. cbn [Qnum Qden].
  pose proof (Z.sqrt_nonneg (Qnum x * 10 ^ 12 / Z.pos (Qden x))). lia.
Qed.

(** X3. As long as the square root is not negative, the smoothed gaze
    and pose stabilities of an estimator stay between 0 and 1 whatever
    samples it ingests after construction or [reset()], however large
    the gaze offsets and head angles of those samples are. *)
Theorem stabilities_stay_in_unit sq c events events' :
  (forall x, 0 <= sq x) ->
  let e := ingest_all sq (constructor c) events in
  let e' := ingest_all sq (reset e) events' in
  (in_unit (gaze_stability (smoothed e)) /\
   in_unit (pose_stability (smoothed e))) /\
  (in_unit (gaze_stability (smoothed e')) /\
   in_unit (pose_stability (smoothed e'))).
Proof.
  intros Hsq e e'. split.
  - apply ingest_all_stabilities; [exact Hsq|apply fresh_stabilities].
  - apply ingest_all_stabilities; [exact Hsq|].
    cbn. unfold in_unit. split; split; lra.
Qed.

Lemma stabilities_stay_in_unit_witness :
  in_unit (gaze_stability (smoothed Scenarios.session_estimator)) /\
  in_unit (pose_stability (smoothed Scenarios.session_estimator)).
Proof.
  exact (proj1 (stabilities_stay_in_unit Scenarios.approx_sqrt
                  Inference.no_overrides Scenarios.session_samples []
                  approx_sqrt_nonneg)).
Defined.

(** X4. For such an estimator the clamp never bites on the attentive
    score: an emitted state's attentive score is the weighted sum
    itself, it is at least 0.1, and so is the score of the dominant
    label. *)
Theorem attentive_score_is_raw sq c events tier now st :
  (forall x, 0 <= sq x) ->
  let e := setTier tier (ingest_all sq (constructor c) events) in
  snd (estimate e now) = Some st ->
  p_attentive (condition st)
    == gaze_stability (smoothed e) * 0.4 + pose_stability (smoothed e) * 0.3
       + (if Qltb 0.05 (interaction_pace (smoothed e)) then 0.3 else 0.1) /\
  0.1 <= p_attentive (condition st) /\
  0.1 <= score (condition st) (dominant st).
Proof.
  intros Hsq e Hemit.
  pose proof (estimate_emits _ _ _ Hemit) as (_ & Hc & _ & _ & _ & Hdom).
  destruct (ingest_all_stabilities sq events Hsq (constructor c)
              (fresh_stabilities c)) as [[Hg0 Hg1] [Hp0 Hp1]].
  change (smoothed e) with (smoothed (ingest_all sq (constructor c) events)) in *.
  set (s := smoothed (ingest_all sq (constructor c) events)) in *.
  assert (Hraw : p_attentive (condition st)
                 == gaze_stability s * 0.4 + pose_stability s * 0.3
                    + (if Qltb 0.05 (interaction_pace s) then 0.3 else 0.1)).
  { rewrite Hc. cbn [computeConditions p_attentive]. unfold clamp.
    destruct (Qltb 0.05 (interaction_pace s));
      (rewrite Q.max_r by lra); apply Q.min_r; lra. }
  assert (Hlow : 0.1 <= p_attentive (condition st)).
  { rewrite Hraw. destruct (Qltb 0.05 (interaction_pace s)); lra. }
  split; [exact Hraw|]. split; [exact Hlow|].
  assert (Hfa : first_argmax (condition st) (dominant st)).
  { rewrite Hdom, Hc. apply findDominant_first_argmax.
    rewrite <- Hc. lra. }
  destruct Hfa as [Hmax _]. specialize (Hmax attentive). cbn [score] in Hmax.
  lra.
Qed.

Lemma attentive_score_is_raw_witness :
  exists st,
    Scenarios.session_state_tier1 = Some st /\
    0.1 <= p_attentive (condition st) /\
    0.1 <= score (condition st) (dominant st).
Proof.
  assert (H : snd (estimate (setTier Tier1
                     (ingest_all Scenarios.approx_sqrt
                        (constructor Inference.no_overrides)
                        Scenarios.session_samples)) 10)
              = Scenarios.session_state_tier1)
    by (vm_compute; reflexivity).
  destruct Scenarios.session_state_tier1 as [st|] eqn:E; [|discriminate E].
  exists st. split; [reflexivity|].
  exact (proj2 (attentive_score_is_raw Scenarios.approx_sqrt
                  Inference.no_overrides Scenarios.session_samples Tier1 10 st
                  approx_sqrt_nonneg H)).
Defined.

(** *** The dominant label of an arbitrary record *)

(** X5. On any five-score record, emitted or not: if some score is above
    -1, [findDominant] returns the first argmax in priority order; if no
    score is above -1 it returns attentive, whatever the scores are. *)
Theorem findDominant_on_any_record (c : ConditionProbabilities) :
  ((exists l, -1 < score c l) -> first_argmax c (findDominant c)) /\
  ((forall l, score c l <= -1) -> findDominant c = attentive).
Proof.
  unfold findDominant, entries, fold_left, dominant_step. cbn [fst snd].
  destruct (Qltb (-1) (p_attentive c)) eqn:E0; cbn [fst snd];
  match goal with
  | |- context [Qltb ?m (p_wandering c)] =>
      destruct (Qltb m (p_wandering c)) eqn:E1; cbn [fst snd]
  end;
  match goal with
  | |- context [Qltb ?m (p_confused c)] =>
      destruct (Qltb m (p_confused c)) eqn:E2; cbn [fst snd]
  end;
  match goal with
  | |- context [Qltb ?m (p_overloaded c)] =>
      destruct (Qltb m (p_overloaded c)) eqn:E3; cbn [fst snd]
  end;
  match goal with
  | |- context [Qltb ?m (p_fatigued c)] =>
      destruct (Qltb m (p_fatigued c)) eqn:E4; cbn [fst snd]
  end;
  order_facts;
  (split;
   [ intros [l0 Hl0]; destruct l0; cbn [score] in Hl0;
     (split; intros l; destruct l; cbn [score priority]; intros; try lra; lia)
   | intros Hall;
     pose proof (Hall attentive) as Ha; pose proof (Hall wandering) as Hw;
     pose proof (Hall confused) as Hc; pose proof (Hall overloaded) as Ho;
     pose proof (Hall fatigued) as Hf; cbn [score] in *;
     first [reflexivity | exfalso; lra] ]).
Qed.

Lemma findDominant_on_any_record_witness :
  first_argmax (Scenarios.scores (-2) (-3) 0.5 0.5 0)
               (findDominant (Scenarios.scores (-2) (-3) 0.5 0.5 0)) /\
  findDominant (Scenarios.scores (-2) (-3) (-1) (-5) (-2)) = attentive.
Proof.
  split.
  - apply (proj1 (findDominant_on_any_record
                    (Scenarios.scores (-2) (-3) 0.5 0.5 0))).
    exists confused. vm_compute. reflexivity.
  - apply (proj2 (findDominant_on_any_record
                    (Scenarios.scores (-2) (-3) (-1) (-5) (-2)))).
    intros l. destruct l; vm_compute; discriminate.
Defined.

(** *** Drivers *)

Lemma insert_driver_perm d ds : Permutation (insert_driver d ds) (d :: ds).
Proof.
  induction ds as [|x rest IH]; cbn [insert_driver]; [reflexivity|].
  destruct (Qltb (weight d) (weight x)); [|reflexivity].
  rewrite IH. apply perm_swap.
Qed.

Lemma insert_driver_sorted d ds :
  heaviest_first ds -> heaviest_first (insert_driver d ds).
Proof.
  unfold heaviest_first. induction 1 as [|x rest Hs IH Hall];
    cbn [insert_driver].
  - constructor; constructor.
  - destruct (Qltb (weight d) (weight x)) eqn:E; order_facts.
    + constructor; [exact IH|].
      rewrite Forall_forall in *. intros y Hy.
      apply (Permutation_in _ (insert_driver_perm d rest)) in Hy.
      destruct Hy as [<-|Hy]; [lra|apply Hall; exact Hy].
    + constructor; [constructor; assumption|].
      constructor; [exact E|].
      rewrite Forall_forall in *. intros y Hy.
      specialize (Hall y Hy). cbv beta in Hall. lra.
Qed.

Lemma sort_drivers_heaviest_first (ds : list ConditionDriver) :
  heaviest_first (sort_drivers ds).
Proof.
  induction ds as [|d rest IH]; [constructor|].
  cbn [sort_drivers fold_right]. apply insert_driver_sorted. exact IH.
Qed.

(** X6. The sort applied to the drivers returns a rearrangement of its
    input with the weights never increasing, and returns an input that
    is already heaviest-first unchanged, so drivers of equal weight keep
    the order in which they were pushed. *)
Theorem sort_drivers_sorts (ds : list ConditionDriver) :
  Permutation (sort_drivers ds) ds /\
  heaviest_first (sort_drivers ds) /\
  (heaviest_first ds -> sort_drivers ds = ds).
Proof.
  split; [|split].
  - induction ds as [|d rest IH]; [reflexivity|].
    cbn [sort_drivers fold_right]. rewrite insert_driver_perm.
    constructor. exact IH.
  - apply sort_drivers_heaviest_first.
  - unfold heaviest_first. induction 1 as [|d rest Hs IH Hall];
      [reflexivity|].
    cbn [sort_drivers fold_right]. fold (sort_drivers rest). rewrite IH.
    destruct rest as [|x rest']; [reflexivity|].
    cbn [insert_driver].
    apply Forall_inv in Hall.
    assert (E : Qltb (weight d) (weight x) = false)
      by (apply Qltb_false; exact Hall).
    rewrite E. reflexivity.
Qed.

Lemma sort_drivers_sorts_witness :
  let ds := [ {| description := "elevated blink rate";
                 features := ["eyes.blink_rate_30s"]; weight := 0.2 |};
              {| description := "slower response times";
                 features := ["interaction.tap_rate_10s"]; weight := 0.2 |} ] in
  sort_drivers ds = ds.
Proof.
  cbv zeta. apply (proj2 (proj2 (sort_drivers_sorts _))).
  unfold heaviest_first.
  constructor; [constructor; [constructor|constructor]|].
  constructor; [vm_compute; discriminate|constructor].
Defined.

(** X7. [computeDrivers] always reports in one fixed order: gaze breaks,
    retries, pose drift, idle period, blink rate, slower responses, each
    present exactly when its threshold test on the smoothed signals
    holds; there are at most six, heaviest first. *)
Theorem computeDrivers_fixed_order (s : Smoothed) :
  computeDrivers s = map snd (filter fst (driver_table s)) /\
  heaviest_first (computeDrivers s) /\
  (List.length (computeDrivers s) <= 6)%nat.
Proof.
  assert (H : computeDrivers s = map snd (filter fst (driver_table s))).
  { unfold computeDrivers, driver_table.
    set (desc := String.append (show_int (Math_round (retry_rate s)))
                               " retries in last minute").
    destruct (Qltb (gaze_stability s) 0.4), (Qltb (pose_stability s) 0.4),
      (Qltb 0.5 (retry_rate s)), (Qltb 10 (idle_time s)),
      (Qltb 0.3 (blink_rate s)), (Qltb (interaction_pace s) 0.05);
      reflexivity. }
  split; [exact H|]. split.
  - unfold computeDrivers. apply sort_drivers_heaviest_first.
  - rewrite H, length_map.
    etransitivity; [apply filter_length_le|]. cbn. lia.
Qed.

(** *** Confidence and data availability *)

Lemma existsb_bonus_monotone {A : Type} (f : A -> bool) (l more : list A) :
  (if existsb f l then 0.15 else 0)
  <= (if existsb f (l ++ more) then 0.15 else 0).
Proof.
  rewrite existsb_app. destruct (existsb f l), (existsb f more); cbn; lra.
Qed.

(** X8. Confidence never decreases when further samples join the
    buffer, and it is never below 0.1, for any tier. *)
Theorem confidence_grows_with_data tier (buf more : list FeatureStreamEvent) :
  computeConfidence tier buf <= computeConfidence tier (buf ++ more) /\
  0.1 <= computeConfidence tier buf.
Proof.
  unfold computeConfidence, some.
  pose proof (existsb_bonus_monotone (fun e => is_some (gaze e)) buf more) as Hg.
  pose proof (existsb_bonus_monotone
                (fun e => face_present (quality e)) buf more) as Hf.
  assert (Hfill : Qmin (len buf / 100) 0.3 <= Qmin (len (buf ++ more) / 100) 0.3).
  { apply Q.min_le_compat_r. rewrite len_app.
    pose proof (len_nonneg more).
    setoid_replace ((len buf + len more) / 100)
      with (len buf / 100 + len more / 100) by field.
    assert (0 <= len more / 100) by (apply Qle_shift_div_l; lra). lra. }
  assert (Hfill0 : 0 <= Qmin (len buf / 100) 0.3).
  { apply Q.min_glb; [|lra]. apply Qle_shift_div_l; [lra|].
    pose proof (len_nonneg buf). lra. }
  set (g := if existsb (fun e => is_some (gaze e)) buf then 0.15 else 0) in *.
  set (f := if existsb (fun e => face_present (quality e)) buf then 0.15 else 0) in *.
  assert (Hg0 : 0 <= g)
    by (unfold g; destruct (existsb (fun e => is_some (gaze e)) buf); lra).
  assert (Hf0 : 0 <= f)
    by (unfold f; destruct (existsb (fun e => face_present (quality e)) buf);
        lra).
  split.
  - apply clamp_monotone. lra.
  - unfold clamp. apply Q.min_glb; [lra|].
    apply Q.max_le_iff. right.
    assert (0 <= tier_value tier) by (destruct tier; cbn; lra). lra.
Qed.

Lemma telemetry_only_no_bonus (buf : list FeatureStreamEvent) :
  forallb telemetry_only_sample buf = true ->
  existsb (fun e => is_some (gaze e)) buf = false /\
  existsb (fun e => face_present (quality e)) buf = false.
Proof.
  induction buf as [|ev rest IH]; cbn [forallb existsb]; [split; reflexivity|].
  intros H. apply andb_true_iff in H. destruct H as [Hev Hrest].
  unfold telemetry_only_sample in Hev. apply andb_true_iff in Hev.
  destruct Hev as [Hg Hf]. apply negb_true_iff in Hg, Hf.
  destruct (IH Hrest) as [IHg IHf]. rewrite Hg, Hf, IHg, IHf. split; reflexivity.
Qed.

Lemma telemetry_only_confidence (buf : list FeatureStreamEvent) :
  forallb telemetry_only_sample buf = true ->
  computeConfidence Tier0 buf == 0.1 + Qmin (len buf / 100) 0.3 /\
  computeConfidence Tier0 buf <= 0.4.
Proof.
  intros H. destruct (telemetry_only_no_bonus buf H) as [Hg Hf].
  unfold computeConfidence, some. rewrite Hg, Hf. cbn [tier_value].
  assert (Hfill0 : 0 <= Qmin (len buf / 100) 0.3).
  { apply Q.min_glb; [|lra]. apply Qle_shift_div_l; [lra|].
    pose proof (len_nonneg buf). lra. }
  pose proof (Q.le_min_r (len buf / 100) 0.3) as Hfill1.
  set (fill := Qmin (len buf / 100) 0.3) in *.
  assert (Hc : clamp (0 * 0.15 + fill + 0 + 0 + 0.1) == 0.1 + fill).
  { unfold clamp. rewrite Q.max_r by lra. rewrite Q.min_r by lra. ring. }
  split; [exact Hc|]. rewrite Hc. lra.
Qed.

(** *** Reset *)

(** X9. [reset()] after any ingests, tier change and emission leaves the
    estimator exactly as constructed, except that it keeps its
    configuration and the tier last set. *)
Theorem reset_forgets_samples sq e events tier now :
  reset (fst (estimate (setTier tier (ingest_all sq e events)) now))
    = {| config := config e; buffer := []; lastEmit := 0;
         currentTier := tier; smoothed := initial_smoothed |}.
Proof.
  destruct (ingest_all_frame sq events e) as (Hc & _ & _).
  unfold reset. f_equal.
  - unfold estimate.
    destruct (Qltb _ _); cbn [fst config setTier]; exact Hc.
  - unfold estimate.
    destruct (Qltb _ _); reflexivity.
Qed.

End EstimatorLaws.

(* ------------------------------------------------------------------ *)
(** ** The policy engine: bookkeeping, rate limit, spacing, selection *)
(* ------------------------------------------------------------------ *)

Module PolicyLaws.
Import FeatureStream Inference Policy Spec Laws PolicyFacts.

Lemma sorted_snoc {A : Type} (R : A -> A -> Prop) (l : list A) (x : A) :
  StronglySorted R l -> Forall (fun y => R y x) l ->
  StronglySorted R (l ++ [x]).
Proof.
  induction 1 as [|a l Hs IH Hall]; cbn [app]; intros Hx.
  - constructor; constructor.
  - apply Forall_cons_iff in Hx. destruct Hx as [Hax Hlx].
    constructor; [apply IH; exact Hlx|].
    apply Forall_app. split; [exact Hall|]. constructor; [exact Hax|constructor].
Qed.

(** [evaluate] intervenes exactly when the five gates pass. *)
Lemma evaluate_gates e s a :
  should_intervene (snd (evaluate e s a)) = gates_pass e s.
Proof.
  unfold evaluate, gates_pass, recent_interventions, len. cbv zeta.
  destruct (CONDITION_INTERVENTIONS (dominant s)); [reflexivity|].
  destruct (Qltb (confidence s) _); [reflexivity|].
  destruct (isSustained _ _ _ _); [|reflexivity].
  destruct (Qltb (st_t s - _) _); [reflexivity|].
  destruct (Qgeb _ _); reflexivity.
Qed.

(** X10. An abstaining [evaluate] changes nothing in the engine but the
    condition history and returns no intervention; an intervening one
    appends exactly one record, at the state's time and with the class
    of the intervention it returns, sets the last-intervention time to
    that time, and suggests the adjusted cooldown as the next
    evaluation delay.  The configuration is never touched. *)
Theorem evaluate_bookkeeping e s a :
  let e' := fst (evaluate e s a) in
  let d := snd (evaluate e s a) in
  Policy.config e' = Policy.config e /\
  conditionHistory e' = conditionHistory (track e s) /\
  (if should_intervene d then
     exists i,
       intervention d = Some i /\
       history e' = history e ++ [ {| h_t := st_t s; h_class := int_class i |} ] /\
       lastInterventionTime e' = st_t s /\
       next_evaluation_s d = adjustedCooldown (Policy.config e)
   else
     intervention d = None /\
     history e' = history e /\
     lastInterventionTime e' = lastInterventionTime e).
Proof.
  cbv zeta. split; [apply evaluate_config|].
  split; [apply evaluate_conditionHistory|].
  unfold evaluate.
  destruct (CONDITION_INTERVENTIONS (dominant s)); [cbn; repeat split|].
  destruct (Qltb (confidence s) _); [cbn; repeat split|].
  destruct (negb _); [cbn; repeat split|].
  destruct (Qltb (st_t s - _) _); [cbn; repeat split|].
  destruct (Qgeb _ _); [cbn; repeat split|].
  cbn. eexists. repeat split.
Qed.

(** *** Rate limit *)

Lemma evaluate_rate_respected e s a :
  rate_respected (max_per_10min (Policy.config e)) (history e) ->
  rate_respected (max_per_10min (Policy.config e))
                 (history (fst (evaluate e s a))).
Proof.
  intros H. unfold evaluate.
  destruct (CONDITION_INTERVENTIONS (dominant s)); [exact H|].
  destruct (Qltb (confidence s) _); [exact H|].
  destruct (negb _); [exact H|].
  destruct (Qltb (st_t s - _) _); [exact H|].
  change (history (track e s)) with (history e).
  change (Policy.config (track e s)) with (Policy.config e).
  destruct (Qgeb _ _) eqn:E; [exact H|].
  cbn [fst history]. constructor; [exact H|].
  cbn [h_t]. apply Qgeb_false in E. exact E.
Qed.

Lemma perform_rate_respected e op :
  rate_respected (max_per_10min (Policy.config e)) (history e) ->
  rate_respected (max_per_10min (Policy.config (perform e op)))
                 (history (perform e op)).
Proof.
  intros H. destruct op as [s a|i c|prefs|]; cbn [perform].
  - rewrite evaluate_config. apply evaluate_rate_respected. exact H.
  - destruct c; exact H.
  - exact H.
  - constructor.
Qed.

(** X11. Whatever is done to an engine after construction, every
    intervention in its history was offered when fewer than
    [max_per_10min] recorded interventions were less than 600 s old; and
    an [evaluate] that finds at least [max_per_10min] such interventions
    abstains. *)
Theorem rate_limit_respected c ops :
  let e := perform_all (Policy.constructor c) ops in
  rate_respected (max_per_10min (Policy.config e)) (history e) /\
  (forall s a,
      max_per_10min (Policy.config e)
        <= len (recent_interventions (st_t s) (history e)) ->
      should_intervene (snd (evaluate e s a)) = false).
Proof.
  cbv zeta. split.
  - unfold perform_all.
    assert (H0 : rate_respected
                   (max_per_10min (Policy.config (Policy.constructor c)))
                   (history (Policy.constructor c))) by constructor.
    revert H0. generalize (Policy.constructor c).
    induction ops as [|op rest IH]; intros e H; [exact H|].
    cbn [fold_left]. apply IH. apply perform_rate_respected. exact H.
  - intros s a Hfull. rewrite evaluate_gates. unfold gates_pass. cbv zeta.
    destruct (CONDITION_INTERVENTIONS (dominant s)); [reflexivity|].
    change (history (track ?e s)) with (history e).
    change (Policy.config (track ?e s)) with (Policy.config e).
    apply Qgeb_true in Hfull. rewrite Hfull.
    rewrite !andb_false_r. reflexivity.
Qed.

Lemma rate_limit_respected_witness :
  let e := perform_all (Policy.constructor Policy.no_overrides)
             [ op_evaluate (Scenarios.confused_state 1000) Scenarios.ambient;
               op_evaluate (Scenarios.confused_state 1200) Scenarios.ambient;
               op_evaluate (Scenarios.confused_state 1400) Scenarios.ambient ] in
  List.length (history e) = 3%nat /\
  should_intervene
    (snd (evaluate e (Scenarios.confused_state 1590) Scenarios.ambient)) = false.
Proof.
  cbv zeta. split; [vm_compute; reflexivity|].
  apply (proj2 (rate_limit_respected Policy.no_overrides _)).
  vm_compute. discriminate.
Defined.

(** *** Time order and spacing of the history *)

Lemma adjustedCooldown_nonneg cfg :
  0 <= cooldown_s cfg -> 0 <= adjustedCooldown cfg.
Proof.
  intros H. unfold adjustedCooldown.
  destruct (frequency (preferences cfg)); lra.
Qed.

Lemma evaluate_history_bounded e s a :
  history_bounded e -> history_bounded (fst (evaluate e s a)).
Proof.
  intros (Hc & Hs & Hall). unfold history_bounded.
  rewrite evaluate_config. split; [exact Hc|].
  unfold evaluate.
  destruct (CONDITION_INTERVENTIONS (dominant s)); [split; assumption|].
  destruct (Qltb (confidence s) _); [split; assumption|].
  destruct (negb _); [split; assumption|].
  change (lastInterventionTime (track e s)) with (lastInterventionTime e).
  change (Policy.config (track e s)) with (Policy.config e).
  destruct (Qltb (st_t s - lastInterventionTime e)
              (adjustedCooldown (Policy.config e))) eqn:E;
    [split; assumption|].
  destruct (Qgeb _ _); [split; assumption|].
  cbn [fst history lastInterventionTime track].
  apply Qltb_false in E.
  pose proof (adjustedCooldown_nonneg _ Hc) as Hcool.
  assert (Hle : Forall (fun h => h_t h <= st_t s) (history e)).
  { rewrite Forall_forall in *. intros h Hh. specialize (Hall h Hh).
    cbv beta in Hall. lra. }
  split.
  - apply sorted_snoc; [exact Hs|].
    rewrite Forall_forall in *. intros h Hh. cbn [h_t]. apply Hle. exact Hh.
  - apply Forall_app. split; [exact Hle|].
    constructor; [cbn [h_t]; lra|constructor].
Qed.

Lemma perform_history_bounded e op :
  history_bounded e -> history_bounded (perform e op).
Proof.
  intros H. destruct op as [s a|i c|prefs|]; cbn [perform].
  - apply evaluate_history_bounded. exact H.
  - destruct H as (Hc & Hs & Hall). unfold history_bounded.
    destruct c; cbn [recordResponse Policy.config with_cooldown cooldown_s
                     history lastInterventionTime];
      (split; [|split; assumption]).
    + apply Q.max_le_iff. right. lra.
    + apply Q.min_glb; lra.
    + exact Hc.
  - exact H.
  - destruct H as (Hc & _ & _). unfold history_bounded. cbn.
    split; [exact Hc|]. split; constructor.
Qed.

(** X12. On an engine constructed with a non-negative cooldown_s, after
    any sequence of operations the intervention history is in time
    order and none of its records is later than the last-intervention
    time, even when [evaluate] is fed states whose timestamps go
    backwards. *)
Theorem history_is_time_ordered c ops :
  0 <= cooldown_s (Policy.config (Policy.constructor c)) ->
  let e := perform_all (Policy.constructor c) ops in
  time_ordered (history e) /\
  Forall (fun h => h_t h <= lastInterventionTime e) (history e).
Proof.
  intros Hc. cbv zeta.
  assert (H0 : history_bounded (Policy.constructor c)).
  { split; [exact Hc|]. split; constructor. }
  assert (H : history_bounded (perform_all (Policy.constructor c) ops)).
  { unfold perform_all. revert H0. generalize (Policy.constructor c).
    induction ops as [|op rest IH]; intros e H; [exact H|].
    cbn [fold_left]. apply IH. apply perform_history_bounded. exact H. }
  destruct H as (_ & Hs & Hall). split; assumption.
Qed.

Lemma history_is_time_ordered_witness :
  let e := perform_all (Policy.constructor Policy.no_overrides)
             [ op_evaluate (Scenarios.confused_state 1000) Scenarios.ambient;
               op_recordResponse "int_1" accept;
               op_evaluate (Scenarios.confused_state 500) Scenarios.ambient;
               op_evaluate (Scenarios.wandering_state 1200) Scenarios.ambient ] in
  time_ordered (history e).
Proof.
  cbv zeta.
  apply (history_is_time_ordered Policy.no_overrides).
  vm_compute. discriminate.
Defined.

Lemma evaluate_history_spaced e s a :
  0 <= adjustedCooldown (Policy.config e) ->
  history_spaced (adjustedCooldown (Policy.config e)) e ->
  history_spaced (adjustedCooldown (Policy.config e)) (fst (evaluate e s a)).
Proof.
  intros Hcool (Hs & Hall & Hmin & Hlast). unfold history_spaced.
  unfold evaluate.
  destruct (CONDITION_INTERVENTIONS (dominant s)); [repeat split; assumption|].
  destruct (Qltb (confidence s) _); [repeat split; assumption|].
  destruct (negb _); [repeat split; assumption|].
  change (lastInterventionTime (track e s)) with (lastInterventionTime e).
  change (Policy.config (track e s)) with (Policy.config e).
  destruct (Qltb (st_t s - lastInterventionTime e)
              (adjustedCooldown (Policy.config e))) eqn:E;
    [repeat split; assumption|].
  destruct (Qgeb _ _); [repeat split; assumption|].
  cbn [fst history lastInterventionTime track].
  apply Qltb_false in E.
  split; [|split; [|split]].
  - apply sorted_snoc; [exact Hs|].
    rewrite Forall_forall in *. intros h Hh. cbn [h_t].
    specialize (Hall h Hh). cbv beta in Hall. lra.
  - apply Forall_app. split.
    + rewrite Forall_forall in *. intros h Hh.
      specialize (Hall h Hh). cbv beta in Hall. lra.
    + constructor; [cbn [h_t]; lra|constructor].
  - apply Forall_app. split; [exact Hmin|].
    constructor; [cbn [h_t]; lra|constructor].
  - lra.
Qed.

(** X13. Under [evaluate] calls alone, starting from a fresh engine
    whose adjusted cooldown is not negative, any two interventions in
    the history are at least the adjusted cooldown apart, and none is
    recorded at a time below the adjusted cooldown: the initial
    last-intervention time 0 counts like an intervention at time 0. *)
Theorem interventions_are_spaced e calls :
  Fresh e ->
  0 <= adjustedCooldown (Policy.config e) ->
  let e' := fst (evaluate_all e calls) in
  spaced (adjustedCooldown (Policy.config e)) (history e') /\
  Forall (fun h => adjustedCooldown (Policy.config e) <= h_t h) (history e').
Proof.
  intros Hfresh Hcool. cbv zeta.
  assert (H0 : history_spaced (adjustedCooldown (Policy.config e)) e).
  { destruct Hfresh;
      (split; [apply SSorted_nil
              |split; [apply Forall_nil
                      |split; [apply Forall_nil|apply Qle_refl]]]). }
  assert (H : history_spaced (adjustedCooldown (Policy.config e))
                             (fst (evaluate_all e calls))).
  { clear Hfresh. revert H0 Hcool.
    set (gap := adjustedCooldown (Policy.config e)).
    assert (Hgap : gap = adjustedCooldown (Policy.config e)) by reflexivity.
    clearbody gap. revert e Hgap.
    induction calls as [|[s a] rest IH]; intros e Hgap H0 Hcool; [exact H0|].
    rewrite evaluate_all_cons. apply IH.
    - rewrite evaluate_config. exact Hgap.
    - rewrite Hgap. apply evaluate_history_spaced; rewrite <- Hgap; assumption.
    - exact Hcool. }
  destruct H as (Hs & _ & Hmin & _). split; assumption.
Qed.

Lemma interventions_are_spaced_witness :
  let e' := fst (evaluate_all Scenarios.default_engine
                   [ (Scenarios.confused_state 1000, Scenarios.ambient);
                     (Scenarios.confused_state 1060, Scenarios.ambient);
                     (Scenarios.confused_state 1125, Scenarios.ambient) ]) in
  spaced 120 (history e').
Proof.
  cbv zeta.
  apply (interventions_are_spaced Scenarios.default_engine).
  - apply fresh_constructor.
  - vm_compute. discriminate.
Defined.

(** *** Which class is offered *)

Lemma evaluate_offers_class e s a i :
  intervention (snd (evaluate e s a)) = Some i ->
  exists c0 cs,
    CONDITION_INTERVENTIONS (dominant s) = c0 :: cs /\
    int_class i = chooseClass (Policy.config e) (history e) c0 cs s /\
    int_confidence i = confidence s /\
    int_triggered_by i = map description (drivers s).
Proof.
  unfold evaluate.
  destruct (CONDITION_INTERVENTIONS (dominant s)) as [|c0 cs]; [discriminate|].
  destruct (Qltb (confidence s) _); [discriminate|].
  destruct (negb _); [discriminate|].
  destruct (Qltb (st_t s - _) _); [discriminate|].
  destruct (Qgeb _ _); [discriminate|].
  cbn. intros H. injection H as <-. exists c0, cs. repeat split.
Qed.

(** What [chooseClass] picks from a row of the candidate table. *)
Lemma chooseClass_on_table cfg hist d c0 cs s :
  CONDITION_INTERVENTIONS d = c0 :: cs ->
  let cls := chooseClass cfg hist c0 cs s in
  In cls (c0 :: cs) /\
  (offer_breaks (preferences cfg) = false -> cls <> Reset) /\
  (offer_hints (preferences cfg) = false -> cls <> Hint) /\
  (offer_breaks (preferences cfg) = true -> last_class hist <> Some cls).
Proof.
  intros Htable. unfold chooseClass, last_class. cbv zeta.
  destruct (offer_breaks (preferences cfg)), (offer_hints (preferences cfg));
    destruct d; cbn in Htable; try discriminate;
    injection Htable as <- <-;
    (destruct (rev hist) as [|last rest];
     [|destruct (h_class last)]);
    cbn; (split; [tauto|]);
    (split; [intros; discriminate|]);
    (split; [intros; discriminate|]); intros; discriminate.
Qed.

(** X14. An intervention returned by [evaluate] has a class from the
    candidate row of the state's dominant label, is never a break
    (reset) when breaks are switched off and never a hint when hints
    are switched off, and carries the state's confidence and the
    descriptions of its drivers. *)
Theorem offered_class_respects_preferences e s a i :
  intervention (snd (evaluate e s a)) = Some i ->
  In (int_class i) (CONDITION_INTERVENTIONS (dominant s)) /\
  (offer_breaks (preferences (Policy.config e)) = false ->
   int_class i <> Reset) /\
  (offer_hints (preferences (Policy.config e)) = false ->
   int_class i <> Hint) /\
  int_confidence i = confidence s /\
  int_triggered_by i = map description (drivers s).
Proof.
  intros H.
  destruct (evaluate_offers_class _ _ _ _ H) as (c0 & cs & Ht & Hc & Hconf & Hby).
  pose proof (chooseClass_on_table (Policy.config e) (history e)
                (dominant s) c0 cs s Ht) as (Hin & Hb & Hh & _).
  rewrite Hc, Ht. repeat split; assumption.
Qed.

Lemma offered_class_respects_preferences_witness :
  let e := updatePreferences Scenarios.default_engine
             {| frequency' := None; preferred_modality' := None;
                offer_breaks' := Some false; offer_hints' := None |} in
  exists i,
    intervention (snd (evaluate e (Scenarios.wandering_state 1000)
                         Scenarios.ambient)) = Some i /\
    int_class i = Modality /\ int_class i <> Reset.
Proof.
  cbv zeta. eexists. split; [vm_compute; reflexivity|].
  split; [reflexivity|].
  refine (proj1 (proj2 (offered_class_respects_preferences
                          (updatePreferences Scenarios.default_engine
                             {| frequency' := None; preferred_modality' := None;
                                offer_breaks' := Some false;
                                offer_hints' := None |})
                          (Scenarios.wandering_state 1000) Scenarios.ambient
                          _ _)) _); vm_compute; reflexivity.
Defined.

(** X15. As long as breaks are allowed, [evaluate] never offers the
    class it offered last: the class of a returned intervention differs
    from the class of the most recent record of the history. *)
Theorem offered_class_varies e s a i :
  offer_breaks (preferences (Policy.config e)) = true ->
  intervention (snd (evaluate e s a)) = Some i ->
  last_class (history e) <> Some (int_class i).
Proof.
  intros Hb H.
  destruct (evaluate_offers_class _ _ _ _ H) as (c0 & cs & Ht & Hc & _).
  pose proof (chooseClass_on_table (Policy.config e) (history e)
                (dominant s) c0 cs s Ht) as (_ & _ & _ & Hv).
  rewrite Hc. apply Hv. exact Hb.
Qed.

Lemma offered_class_varies_witness :
  let first := evaluate Scenarios.default_engine
                 (Scenarios.confused_state 1000) Scenarios.ambient in
  exists i,
    intervention (snd (evaluate (fst first) (Scenarios.confused_state 1200)
                         Scenarios.ambient)) = Some i /\
    last_class (history (fst first)) = Some Hint /\
    last_class (history (fst first)) <> Some (int_class i).
Proof.
  cbv zeta. eexists. split; [vm_compute; reflexivity|].
  split; [vm_compute; reflexivity|].
  apply (offered_class_varies _ (Scenarios.confused_state 1200)
           Scenarios.ambient); vm_compute; reflexivity.
Defined.

(** *** The frequency preference *)

Lemma gates_pass_frequency e f s :
  gates_pass (set_frequency e f) s
  = match CONDITION_INTERVENTIONS (dominant s) with
    | [] => false
    | _ :: _ =>
        negb (Qltb (confidence s)
                   (match f with
                    | fewer => confidence_threshold (Policy.config e) + 0.1
                    | more => Qmax (confidence_threshold (Policy.config e) - 0.1) 0.3
                    | default => confidence_threshold (Policy.config e)
                    end))
        && sustain_gate e s
        && negb (Qltb (st_t s - lastInterventionTime e)
                      (match f with
                       | fewer => cooldown_s (Policy.config e) * 1.5
                       | more => cooldown_s (Policy.config e) * 0.7
                       | default => cooldown_s (Policy.config e)
                       end))
        && negb (Qgeb (len (recent_interventions (st_t s) (history e)))
                      (max_per_10min (Policy.config e)))
    end.
Proof.
  unfold gates_pass, sustain_gate. cbv zeta.
  destruct (CONDITION_INTERVENTIONS (dominant s)); [reflexivity|].
  destruct f; reflexivity.
Qed.

(** X16. Asking for fewer interventions never opens a gate and asking
    for more never closes one, within the ranges where the adjustment
    is meant: with a non-negative cooldown_s, a state that is offered an
    intervention under the preference fewer is offered one under
    default, and, when the confidence threshold is at least 0.3, a state
    offered one under default is offered one under more.  Below 0.3 the
    preference more raises the threshold to 0.3 instead. *)
Theorem more_frequent_is_never_stricter e s a :
  0 <= cooldown_s (Policy.config e) ->
  (should_intervene (snd (evaluate (set_frequency e fewer) s a)) = true ->
   should_intervene (snd (evaluate (set_frequency e default) s a)) = true) /\
  (0.3 <= confidence_threshold (Policy.config e) ->
   should_intervene (snd (evaluate (set_frequency e default) s a)) = true ->
   should_intervene (snd (evaluate (set_frequency e more) s a)) = true) /\
  (confidence_threshold (Policy.config e) < 0.3 ->
   adjustedThreshold (Policy.config (set_frequency e more)) == 0.3).
Proof.
  intros Hc. rewrite !evaluate_gates, !gates_pass_frequency.
  split; [|split].
  - destruct (CONDITION_INTERVENTIONS (dominant s)); [discriminate|].
    destruct (sustain_gate e s); [|rewrite !andb_false_r; discriminate].
    destruct (Qgeb _ _); [rewrite !andb_false_r; discriminate|].
    cbn [negb]. rewrite !andb_true_r.
    intros H. apply andb_true_iff in H. destruct H as [H1 H2].
    apply negb_true_iff in H1, H2. order_facts.
    apply andb_true_iff. split; apply negb_true_iff; apply Qltb_false; lra.
  - intros Hth.
    destruct (CONDITION_INTERVENTIONS (dominant s)); [discriminate|].
    destruct (sustain_gate e s); [|rewrite !andb_false_r; discriminate].
    destruct (Qgeb _ _); [rewrite !andb_false_r; discriminate|].
    cbn [negb]. rewrite !andb_true_r.
    intros H. apply andb_true_iff in H. destruct H as [H1 H2].
    apply negb_true_iff in H1, H2. order_facts.
    apply andb_true_iff. split; apply negb_true_iff; apply Qltb_false.
    + assert (Qmax (confidence_threshold (Policy.config e) - 0.1) 0.3
              <= confidence_threshold (Policy.config e))
        by (apply Q.max_lub; lra).
      lra.
    + lra.
  - intros Hlow. cbn. apply Q.max_r. lra.
Qed.

Lemma more_frequent_is_never_stricter_witness :
  let e := fst (evaluate Scenarios.default_engine
                  (Scenarios.confused_state 1000) Scenarios.ambient) in
  should_intervene (snd (evaluate (set_frequency e default)
                           (Scenarios.confused_state 1100) Scenarios.ambient))
    = false /\
  should_intervene (snd (evaluate (set_frequency e default)
                           (Scenarios.confused_state 1130) Scenarios.ambient))
    = true /\
  should_intervene (snd (evaluate (set_frequency e more)
                           (Scenarios.confused_state 1130) Scenarios.ambient))
    = true.
Proof.
  cbv zeta. split; [vm_compute; reflexivity|].
  assert (H : should_intervene
                (snd (evaluate
                        (set_frequency
                           (fst (evaluate Scenarios.default_engine
                                   (Scenarios.confused_state 1000)
                                   Scenarios.ambient)) default)
                        (Scenarios.confused_state 1130) Scenarios.ambient))
              = true) by (vm_compute; reflexivity).
  split; [exact H|].
  refine (proj1 (proj2 (more_frequent_is_never_stricter _
                          (Scenarios.confused_state 1130) Scenarios.ambient _))
            _ H); vm_compute; discriminate.
Defined.

(** *** Repeated responses *)

Lemma respond_repeatedly_succ e choice n :
  respond_repeatedly e choice (S n)
  = respond_repeatedly (recordResponse e "int" choice) choice n.
Proof. reflexivity. Qed.

(** X17. Responses accumulate in closed form: from a cooldown_s of at
    most 300, [n] dismissals in a row leave the smaller of
    cooldown_s + 15 n and 300; from a cooldown_s of at least 60, [n]
    acceptances in a row leave the larger of cooldown_s - 5 n and 60;
    any number of alternative responses leaves the engine as it was. *)
Theorem responses_accumulate e n :
  (cooldown_s (Policy.config e) <= 300 ->
   cooldown_s (Policy.config (respond_repeatedly e dismiss n))
   == Qmin (cooldown_s (Policy.config e) + 15 * inject_Z (Z.of_nat n)) 300) /\
  (60 <= cooldown_s (Policy.config e) ->
   cooldown_s (Policy.config (respond_repeatedly e accept n))
   == Qmax (cooldown_s (Policy.config e) - 5 * inject_Z (Z.of_nat n)) 60) /\
  respond_repeatedly e alternative n = e.
Proof.
  split; [|split].
  - revert e. induction n as [|n IH]; intros e Hc.
    + change (respond_repeatedly e dismiss 0) with e.
      change (inject_Z (Z.of_nat 0)) with 0.
      rewrite Q.min_l by lra. ring.
    + rewrite respond_repeatedly_succ, IH.
      * cbn [recordResponse Policy.config with_cooldown cooldown_s].
        rewrite Nat2Z.inj_succ. unfold Z.succ. rewrite inject_Z_plus.
        set (c := cooldown_s (Policy.config e)) in *.
        set (k := inject_Z (Z.of_nat n)).
        assert (Hk : 0 <= k)
          by (unfold k; change 0 with (inject_Z 0); rewrite <- Zle_Qle; lia).
        change (inject_Z 1) with 1.
        destruct (Q.min_spec (c + 15) 300) as [[H1 ->]|[H1 ->]].
        -- apply Q.min_compat; [ring|reflexivity].
        -- rewrite Q.min_r by lra. rewrite Q.min_r by lra. reflexivity.
      * cbn [recordResponse Policy.config with_cooldown cooldown_s].
        apply Q.le_min_r.
  - revert e. induction n as [|n IH]; intros e Hc.
    + change (respond_repeatedly e accept 0) with e.
      change (inject_Z (Z.of_nat 0)) with 0.
      rewrite Q.max_l by lra. ring.
    + rewrite respond_repeatedly_succ, IH.
      * cbn [recordResponse Policy.config with_cooldown cooldown_s].
        rewrite Nat2Z.inj_succ. unfold Z.succ. rewrite inject_Z_plus.
        set (c := cooldown_s (Policy.config e)) in *.
        set (k := inject_Z (Z.of_nat n)).
        assert (Hk : 0 <= k)
          by (unfold k; change 0 with (inject_Z 0); rewrite <- Zle_Qle; lia).
        change (inject_Z 1) with 1.
        destruct (Q.max_spec (c - 5) 60) as [[H1 ->]|[H1 ->]].
        -- rewrite Q.max_r by lra. rewrite Q.max_r by lra. reflexivity.
        -- apply Q.max_compat; [ring|reflexivity].
      * cbn [recordResponse Policy.config with_cooldown cooldown_s].
        apply Q.le_max_r.
  - revert e. induction n as [|n IH]; intros e; [reflexivity|].
    rewrite respond_repeatedly_succ, IH. destruct e; reflexivity.
Qed.

Lemma responses_accumulate_witness :
  cooldown_s (Policy.config (respond_repeatedly Scenarios.default_engine dismiss 3))
    == 165 /\
  cooldown_s (Policy.config (respond_repeatedly Scenarios.default_engine accept 20))
    == 60.
Proof.
  split.
  - rewrite (proj1 (responses_accumulate Scenarios.default_engine 3))
      by (vm_compute; discriminate).
    vm_compute. reflexivity.
  - rewrite (proj1 (proj2 (responses_accumulate Scenarios.default_engine 20)))
      by (vm_compute; discriminate).
    vm_compute. reflexivity.
Defined.

(** *** The first call on a fresh engine *)

Lemma Fresh_state e :
  Fresh e ->
  history e = [] /\ lastInterventionTime e = 0 /\ conditionHistory e = [].
Proof. intros [c|e0]; repeat split. Qed.

Lemma empty_history_sustained e s :
  conditionHistory e = [] ->
  0 <= sustained_window_s (Policy.config e) ->
  sustain_gate e s = true.
Proof.
  intros Hempty Hw. unfold sustain_gate, track. cbv zeta.
  cbn [conditionHistory Policy.config]. rewrite Hempty. cbn [app].
  unfold pruneConditionHistory. cbn [shift_while c_t].
  assert (E1 : Qltb (st_t s) (st_t s - sustained_window_s (Policy.config e) * 2)
               = false) by (apply Qltb_false; lra).
  rewrite E1. unfold isSustained. cbn [filter c_t].
  assert (E2 : Qgeb (st_t s) (st_t s - sustained_window_s (Policy.config e))
               = true) by (apply Qgeb_true; lra).
  rewrite E2. cbn [filter c_condition].
  rewrite LearningCondition_eqb_refl. reflexivity.
Qed.

(** X18. On an engine fresh from construction or [reset()], with a
    non-negative sustain window, the first [evaluate] intervenes exactly
    when the dominant label is not attentive, the confidence reaches the
    adjusted threshold, the state's timestamp has reached the adjusted
    cooldown (the last-intervention time starts at 0), and
    max_per_10min is positive. *)
Theorem first_evaluate_decides e s a :
  Fresh e ->
  0 <= sustained_window_s (Policy.config e) ->
  (should_intervene (snd (evaluate e s a)) = true <->
   dominant s <> attentive /\
   adjustedThreshold (Policy.config e) <= confidence s /\
   adjustedCooldown (Policy.config e) <= st_t s /\
   0 < max_per_10min (Policy.config e)).
Proof.
  intros Hfresh Hw.
  destruct (Fresh_state e Hfresh) as (Hh & Hl & Hch).
  pose proof (empty_history_sustained e s Hch Hw) as Hgate.
  unfold sustain_gate in Hgate. cbv zeta in Hgate.
  rewrite evaluate_gates. unfold gates_pass. cbv zeta.
  rewrite Hgate.
  change (history (track e s)) with (history e).
  change (lastInterventionTime (track e s)) with (lastInterventionTime e).
  change (Policy.config (track e s)) with (Policy.config e).
  rewrite Hh, Hl. unfold recent_interventions. cbn [filter].
  change (len (@nil InterventionRecord)) with 0.
  split.
  - intros H.
    destruct (CONDITION_INTERVENTIONS (dominant s)) eqn:Et; [discriminate|].
    apply andb_true_iff in H. destruct H as [H H4].
    apply andb_true_iff in H. destruct H as [H H3].
    apply andb_true_iff in H. destruct H as [H1 _].
    apply negb_true_iff in H1, H3, H4. order_facts.
    split; [intros Hd; rewrite Hd in Et; discriminate|].
    split; [exact H1|]. split; [lra|exact H4].
  - intros (Hd & H1 & H3 & H4).
    destruct (CONDITION_INTERVENTIONS (dominant s)) eqn:Et.
    { destruct (dominant s); try discriminate. contradiction. }
    apply andb_true_iff. split; [apply andb_true_iff; split;
                                  [apply andb_true_iff; split|]|].
    + apply negb_true_iff. apply Qltb_false. exact H1.
    + reflexivity.
    + apply negb_true_iff. apply Qltb_false. lra.
    + apply negb_true_iff. apply Qgeb_false. exact H4.
Qed.

Lemma first_evaluate_decides_witness :
  should_intervene
    (snd (evaluate (Policy.reset Scenarios.default_engine)
            (Scenarios.confused_state 1000) Scenarios.ambient)) = true /\
  should_intervene
    (snd (evaluate (Policy.reset Scenarios.default_engine)
            (Scenarios.confused_state 100) Scenarios.ambient)) = false.
Proof.
  assert (Hf : Fresh (Policy.reset Scenarios.default_engine))
    by apply fresh_reset.
  assert (Hw : 0 <= sustained_window_s
                      (Policy.config (Policy.reset Scenarios.default_engine)))
    by (vm_compute; discriminate).
  split.
  - apply (first_evaluate_decides _ (Scenarios.confused_state 1000)
             Scenarios.ambient Hf Hw).
    split; [discriminate|].
    split; [vm_compute; discriminate|].
    split; [vm_compute; discriminate|vm_compute; reflexivity].
  - destruct (should_intervene
                (snd (evaluate (Policy.reset Scenarios.default_engine)
                        (Scenarios.confused_state 100) Scenarios.ambient)))
             eqn:E; [|reflexivity].
    apply (first_evaluate_decides _ (Scenarios.confused_state 100)
             Scenarios.ambient Hf Hw) in E.
    destruct E as (_ & _ & Hcool & _). vm_compute in Hcool.
    exfalso. apply Hcool. reflexivity.
Defined.

(** *** The re-evaluation delay of a cooldown abstention *)

(** X19. When [evaluate] abstains citing the cooldown with [r] seconds
    remaining, [r] is at least 1, it is the suggested re-evaluation
    delay, and it is enough: a state [r] seconds later than this one is
    no longer held back by the cooldown gate. *)
Theorem cooldown_delay_is_sufficient e s a r :
  reasoning (snd (evaluate e s a)) = CooldownActive r ->
  (1 <= r)%Z /\
  next_evaluation_s (snd (evaluate e s a)) = inject_Z r /\
  lastInterventionTime (fst (evaluate e s a)) = lastInterventionTime e /\
  Qltb (st_t s + inject_Z r - lastInterventionTime e)
       (adjustedCooldown (Policy.config e)) = false.
Proof.
  unfold evaluate.
  destruct (CONDITION_INTERVENTIONS (dominant s)); [discriminate|].
  destruct (Qltb (confidence s) _); [discriminate|].
  destruct (negb _); [discriminate|].
  change (lastInterventionTime (track e s)) with (lastInterventionTime e).
  change (Policy.config (track e s)) with (Policy.config e).
  destruct (Qltb (st_t s - lastInterventionTime e)
              (adjustedCooldown (Policy.config e))) eqn:E.
  2:{ destruct (Qgeb _ _); discriminate. }
  cbn [snd fst reasoning next_evaluation_s noIntervention
       lastInterventionTime track].
  intros H. injection H as <-. unfold Math_ceil.
  set (x := adjustedCooldown (Policy.config e)
            - (st_t s - lastInterventionTime e)).
  pose proof (Qle_ceiling x) as Hup.
  apply Qltb_true in E.
  assert (Hx : 0 < x) by (unfold x; lra).
  split; [|split; [reflexivity|split; [reflexivity|]]].
  - destruct (Z_lt_le_dec (Qceiling x) 1) as [Hlt|Hge]; [|exact Hge].
    exfalso.
    assert (Hz : inject_Z (Qceiling x) <= inject_Z 0)
      by (rewrite <- Zle_Qle; lia).
    change (inject_Z 0) with 0 in Hz. lra.
  - apply Qltb_false.
    set (up := inject_Z (Qceiling x)) in *. unfold x in Hup. lra.
Qed.

Lemma cooldown_delay_is_sufficient_witness :
  let e := fst (evaluate Scenarios.default_engine
                  (Scenarios.confused_state 1000) Scenarios.ambient) in
  reasoning (snd (evaluate e (Scenarios.confused_state 1003) Scenarios.ambient))
    = CooldownActive 117 /\
  Qltb (1003 + inject_Z 117 - lastInterventionTime e)
       (adjustedCooldown (Policy.config e)) = false.
Proof.
  cbv zeta.
  assert (H : reasoning
                (snd (evaluate
                        (fst (evaluate Scenarios.default_engine
                                (Scenarios.confused_state 1000)
                                Scenarios.ambient))
                        (Scenarios.confused_state 1003) Scenarios.ambient))
              = CooldownActive 117) by (vm_compute; reflexivity).
  split; [exact H|].
  exact (proj2 (proj2 (proj2 (cooldown_delay_is_sufficient _ _ _ _ H)))).
Defined.

End PolicyLaws.

(* ------------------------------------------------------------------ *)
(** ** The interaction tracker *)
(* ------------------------------------------------------------------ *)

Module TelemetryLaws.
Import FeatureStream Laws.
Import Telemetry.

Lemma filter_recent_twice (span now1 now2 : Q) (l : list Q) :
  now1 <= now2 ->
  filter (fun t => Qltb (now2 - t) span) (filter (fun t => Qltb (now1 - t) span) l)
  = filter (fun t => Qltb (now2 - t) span) l.
Proof.
  intros Hle. induction l as [|x l IH]; cbn [filter]; [reflexivity|].
  destruct (Qltb (now1 - x) span) eqn:E1; cbn [filter]; rewrite IH;
    [reflexivity|].
  assert (E2 : Qltb (now2 - x) span = false)
    by (apply Qltb_false; apply Qltb_false in E1; lra).
  rewrite E2. reflexivity.
Qed.

(** X20. With a clock that does not go backwards, taking a snapshot
    loses nothing a later snapshot needs: a snapshot at [now2] taken
    after one at [now1 <= now2] reports the same telemetry and leaves
    the same tracker as a snapshot at [now2] taken directly.  In
    particular a second snapshot at the same clock value repeats the
    first. *)
Theorem snapshot_does_not_disturb_later_one tr now1 now2 :
  now1 <= now2 ->
  getSnapshot (fst (getSnapshot tr now1)) now2 = getSnapshot tr now2.
Proof.
  intros Hle. unfold getSnapshot. cbn [fst tapTimestamps retryTimestamps
    lastInteractionTime scrollSpeed lastScrollY lastScrollTime contentElementId].
  rewrite !filter_recent_twice by exact Hle. reflexivity.
Qed.

Lemma snapshot_does_not_disturb_later_one_witness :
  let tr := onTap (recordRetry (constructor 100) 101 101) 105 105 in
  getSnapshot (fst (getSnapshot tr 110)) 112 = getSnapshot tr 112.
Proof.
  cbv zeta. apply snapshot_does_not_disturb_later_one.
  vm_compute. discriminate.
Defined.

(** X21. A recorded retry adds exactly one to the retry count of the
    next snapshot when that snapshot is taken less than 60 s after it
    and nothing otherwise, leaves the tap rate alone, and makes the
    snapshot measure idle time from the retry. *)
Theorem retry_is_counted_once tr clock1 clock2 now :
  let before := snd (getSnapshot tr now) in
  let after := snd (getSnapshot (recordRetry tr clock1 clock2) now) in
  retry_count_60s after
    == retry_count_60s before + (if Qltb (now - clock1) 60 then 1 else 0) /\
  tap_rate_10s after = tap_rate_10s before /\
  idle_seconds after = Some (now - clock2).
Proof.
  cbv zeta. unfold getSnapshot, recordRetry, recordInteraction.
  cbn [snd retry_count_60s tap_rate_10s idle_seconds retryTimestamps
       tapTimestamps lastInteractionTime].
  split; [|split; reflexivity].
  rewrite filter_app, len_app. cbn [filter].
  destruct (Qltb (now - clock1) 60); reflexivity.
Qed.

(** *** Telemetry is never negative *)

Lemma tracker_step_scrollSpeed tr op :
  0 <= scrollSpeed tr -> 0 <= scrollSpeed (tracker_step tr op).
Proof.
  intros H. destruct op; cbn [tracker_step]; try exact H.
  - unfold onScroll, recordInteraction. cbn [scrollSpeed].
    destruct (Qltb 0.01 (now - lastScrollTime tr)) eqn:E; [|exact H].
    apply Qltb_true in E.
    apply Qle_shift_div_l; [lra|].
    pose proof (Qabs_nonneg (scrollY - lastScrollY tr)). lra.
  - unfold onScrollDecay.
    destruct (Qltb 0.5 (clock - lastScrollTime tr)); [cbn; lra|exact H].
  - cbn. lra.
Qed.

(** X22. Whatever taps, key presses, scrolls, retries, snapshots and
    resets a tracker has seen since construction, a snapshot reports a
    scroll speed, a tap rate and a retry count that are not negative,
    and always reports an idle time. *)
Theorem telemetry_is_never_negative clock ops now :
  let telemetry := snd (getSnapshot (tracker_run (constructor clock) ops) now) in
  0 <= scroll_speed telemetry /\
  0 <= tap_rate_10s telemetry /\
  0 <= retry_count_60s telemetry /\
  idle_seconds telemetry <> None.
Proof.
  cbv zeta. unfold getSnapshot.
  cbn [snd scroll_speed tap_rate_10s retry_count_60s idle_seconds].
  split; [|split; [|split]].
  - unfold tracker_run.
    assert (H0 : 0 <= scrollSpeed (constructor clock)) by (cbn; lra).
    revert H0. generalize (constructor clock).
    induction ops as [|op rest IH]; intros tr H; [exact H|].
    cbn [fold_left]. apply IH. apply tracker_step_scrollSpeed. exact H.
  - apply Qle_shift_div_l; [lra|].
    match goal with |- _ <= len ?l => pose proof (len_nonneg l) end. lra.
  - apply len_nonneg.
  - discriminate.
Qed.

End TelemetryLaws.

(* ------------------------------------------------------------------ *)
(** ** The pipeline with the camera off *)
(* ------------------------------------------------------------------ *)

Module AppLaws.
Import FeatureStream Inference Policy Spec Laws.

Lemma forallb_shift_while {A : Type} (f p : A -> bool) (l : list A) :
  forallb f l = true -> forallb f (shift_while p l) = true.
Proof.
  intros H. apply forallb_forall. intros x Hx.
  rewrite forallb_forall in H. apply H.
  apply (shift_while_subset p l x Hx).
Qed.

Lemma ingest_telemetry_only sq e ev :
  Inference.currentTier e = Tier0 ->
  forallb telemetry_only_sample (buffer e) = true ->
  telemetry_only_sample ev = true ->
  Inference.currentTier (ingest sq e ev) = Tier0 /\
  forallb telemetry_only_sample (buffer (ingest sq e ev)) = true.
Proof.
  intros Ht Hb Hev. split; [exact Ht|].
  cbn [ingest buffer]. unfold pruneBuffer. apply forallb_shift_while.
  rewrite forallb_app, Hb. cbn [forallb]. rewrite Hev. reflexivity.
Qed.

(** Below the adjusted threshold [evaluate] offers nothing. *)
Lemma evaluate_low_confidence e s a :
  confidence s < adjustedThreshold (Policy.config e) ->
  should_intervene (snd (evaluate e s a)) = false /\
  intervention (snd (evaluate e s a)) = None.
Proof.
  intros Hlow. unfold evaluate.
  destruct (CONDITION_INTERVENTIONS (dominant s)); [split; reflexivity|].
  change (Policy.config (track e s)) with (Policy.config e).
  apply Qltb_true in Hlow. rewrite Hlow. split; reflexivity.
Qed.

Lemma estimate_frame e now :
  buffer (fst (estimate e now)) = buffer e /\
  Inference.currentTier (fst (estimate e now)) = Inference.currentTier e.
Proof.
  unfold estimate. destruct (Qltb _ _); split; reflexivity.
Qed.

Lemma handle_camera_off sq p i :
  camera_off_state p ->
  camera_off i = true ->
  camera_off_state (fst (App.handle sq p i)) /\
  existsb is_intervention (snd (App.handle sq p i)) = false.
Proof.
  intros (Hp & He & Hb & Hth) Hi.
  destruct i; cbn [App.handle camera_off] in *.
  - (* a sample from the perception object *)
    unfold App.onFeature.
    destruct (Telemetry.getSnapshot (App.tracker p) clock) as [tr tel].
    cbn [fst snd existsb]. split; [|reflexivity].
    destruct (ingest_telemetry_only sq (App.estimator p)
                (App.with_interaction event tel) He Hb Hi) as [Ht' Hb'].
    split; [exact Hp|]. split; [exact Ht'|]. split; [exact Hb'|exact Hth].
  - destruct tier; try discriminate.
    cbn. split; [|reflexivity].
    split; [reflexivity|]. split; [reflexivity|]. split; [exact Hb|exact Hth].
  - cbn. split; [|reflexivity].
    split; [exact Hp|]. split; [exact He|]. split; [exact Hb|exact Hth].
  - (* runInference *)
    unfold App.runInference. cbv zeta. rewrite Hp.
    destruct (Telemetry.getSnapshot (App.tracker p) clock2) as [tr tel].
    cbn [App.estimator App.policy App.tracker App.currentTier App.lastCondition].
    assert (Hsyn : telemetry_only_sample (App.syntheticEvent clock tel) = true)
      by reflexivity.
    destruct (ingest_telemetry_only sq (App.estimator p)
                (App.syntheticEvent clock tel) He Hb Hsyn) as [Ht' Hb'].
    set (est0 := ingest sq (App.estimator p) (App.syntheticEvent clock tel)) in *.
    pose proof (estimate_frame est0 clock) as [Hfb Hft].
    pose proof (InferenceFacts.estimate_emits est0 clock) as Hemit.
    destruct (estimate est0 clock) as [est result].
    cbn [fst snd] in Hfb, Hft, Hemit.
    destruct result as [st|].
    + destruct (Hemit st eq_refl) as (_ & _ & Hconf & _).
      assert (Hlow : confidence st < adjustedThreshold (Policy.config (App.policy p))).
      { rewrite Hconf, Ht'.
        pose proof (EstimatorLaws.telemetry_only_confidence _ Hb') as [_ Hle].
        lra. }
      pose proof (evaluate_low_confidence (App.policy p) st amb Hlow) as [Hno Hnone].
      pose proof (PolicyFacts.evaluate_config (App.policy p) st amb) as Hcfg.
      destruct (evaluate (App.policy p) st amb) as [pol decision].
      cbn [fst snd] in *. rewrite Hnone.
      split; [|reflexivity].
      split; [reflexivity|]. cbn [App.estimator App.policy].
      split; [rewrite Hft; exact Ht'|].
      split; [rewrite Hfb; exact Hb'|rewrite Hcfg; exact Hth].
    + cbn [fst snd existsb]. split; [|reflexivity].
      split; [reflexivity|]. cbn [App.estimator App.policy].
      split; [rewrite Hft; exact Ht'|].
      split; [rewrite Hfb; exact Hb'|exact Hth].
  - (* stop *)
    cbn. split; [|reflexivity].
    split; [reflexivity|]. split; [reflexivity|]. split; [reflexivity|exact Hth].
  - (* recordInterventionResponse *)
    cbn [fst snd existsb]. split; [|reflexivity].
    split; [exact Hp|]. split; [exact He|]. split; [exact Hb|].
    cbn [App.recordInterventionResponse App.policy].
    destruct response; exact Hth.
  - cbn. split; [|reflexivity].
    split; [exact Hp|]. split; [exact He|]. split; [exact Hb|exact Hth].
  - cbn. split; [|reflexivity].
    split; [exact Hp|]. split; [exact He|]. split; [exact Hb|exact Hth].
  - cbn. split; [|reflexivity].
    split; [exact Hp|]. split; [exact He|]. split; [exact Hb|exact Hth].
  - cbn. split; [|reflexivity].
    split; [exact Hp|]. split; [exact He|]. split; [exact Hb|exact Hth].
  - cbn. split; [|reflexivity].
    split; [exact Hp|]. split; [exact He|]. split; [exact Hb|exact Hth].
  - cbn. split; [|reflexivity].
    split; [exact Hp|]. split; [exact He|]. split; [exact Hb|exact Hth].
Qed.

Lemma session_camera_off sq inputs :
  forall p,
    camera_off_state p ->
    forallb camera_off inputs = true ->
    existsb is_intervention (snd (App.session sq p inputs)) = false.
Proof.
  induction inputs as [|i rest IH]; intros p Hp Hall; [reflexivity|].
  cbn [forallb] in Hall. apply andb_true_iff in Hall. destruct Hall as [Hi Hrest].
  destruct (handle_camera_off sq p i Hp Hi) as [Hp1 Hcb1].
  cbn [App.session].
  destruct (App.handle sq p i) as [p1 cb1]. cbn [fst snd] in Hp1, Hcb1.
  specialize (IH p1 Hp1 Hrest).
  destruct (App.session sq p1 rest) as [p2 cb2]. cbn [snd] in *.
  rewrite existsb_app, Hcb1, IH. reflexivity.
Qed.

Lemma handle_threshold sq p i :
  adjustedThreshold (Policy.config (App.policy (fst (App.handle sq p i))))
  = adjustedThreshold (Policy.config (App.policy p)).
Proof.
  destruct i; cbn [App.handle fst]; try reflexivity.
  - unfold App.runInference. cbv zeta.
    destruct (App.currentTier p);
      [destruct (Telemetry.getSnapshot (App.tracker p) clock2)| |];
      cbn [App.estimator App.policy App.tracker App.currentTier
           App.lastCondition];
      match goal with
      | |- context [estimate ?e ?n] => destruct (estimate e n) as [est result]
      end;
      (destruct result as [st|]; [|reflexivity]);
      pose proof (PolicyFacts.evaluate_config (App.policy p) st amb) as Hcfg;
      destruct (evaluate (App.policy p) st amb) as [pol decision];
      cbn [fst App.policy] in *; rewrite Hcfg; reflexivity.
  - cbn [App.recordInterventionResponse App.policy].
    destruct response; reflexivity.
Qed.

Lemma session_threshold sq inputs :
  forall p,
    adjustedThreshold (Policy.config (App.policy (fst (App.session sq p inputs))))
    = adjustedThreshold (Policy.config (App.policy p)).
Proof.
  induction inputs as [|i rest IH]; intros p; [reflexivity|].
  cbn [App.session].
  pose proof (handle_threshold sq p i) as H1.
  destruct (App.handle sq p i) as [p1 cb1]. cbn [fst] in H1.
  specialize (IH p1).
  destruct (App.session sq p1 rest) as [p2 cb2]. cbn [fst] in *.
  rewrite IH. exact H1.
Qed.

(** X23. The application as wired never offers an intervention while the
    camera is off: in any session of the pipeline, from construction or
    from a [stop()] after anything at all, in which no tier above 0 is
    announced and no sample carries gaze or a face, whatever the learner
    does and however often inference runs, [onIntervention] is never
    called.  Confidence then stays at or below 0.4, under the pipeline's
    threshold of 0.45. *)
Theorem camera_off_never_intervenes sq clock inputs :
  forallb camera_off inputs = true ->
  existsb is_intervention (snd (App.session sq (App.constructor clock) inputs))
    = false /\
  (forall earlier clock',
      let stopped :=
        fst (App.stop (fst (App.session sq (App.constructor clock) earlier))
                      clock') in
      existsb is_intervention (snd (App.session sq stopped inputs)) = false).
Proof.
  intros Hall. split.
  - apply session_camera_off; [|exact Hall].
    split; [reflexivity|]. split; [reflexivity|]. split; [reflexivity|].
    cbn. lra.
  - intros earlier clock'. cbv zeta. apply session_camera_off; [|exact Hall].
    split; [reflexivity|]. split; [reflexivity|]. split; [reflexivity|].
    change (Policy.config
              (App.policy
                 (fst (App.stop
                         (fst (App.session sq (App.constructor clock) earlier))
                         clock'))))
      with (Policy.config
              (App.policy (fst (App.session sq (App.constructor clock) earlier)))).
    rewrite session_threshold. cbn. lra.
Qed.

Lemma camera_off_never_intervenes_witness :
  existsb is_intervention
    (snd (App.session Scenarios.approx_sqrt (App.constructor 990)
            [ App.in_recordRetry 1000 1000;
              App.in_recordRetry 1000 1000;
              App.in_recordRetry 1001 1001;
              App.in_runInference 1009 1009 Scenarios.ambient;
              App.in_tap 1010 1010;
              App.in_feature
                (Scenarios.telemetry_sample 1011 (Scenarios.telemetry 0 0 None))
                1011;
              App.in_runInference 1013 1013 Scenarios.ambient;
              App.in_stop 1014;
              App.in_runInference 1060 1060 Scenarios.ambient ]))
    = false.
Proof.
  eapply proj1. apply camera_off_never_intervenes.
  vm_compute. reflexivity.
Defined.

End AppLaws.
